(** * Todo API (backend/main.py): a shallow embedding and its contract

    The service is a FastAPI application in front of one PostgreSQL table.
    This development embeds
      - the Python string operations the handlers rely on ([strip], [len],
        truthiness),
      - the table [todos] with its primary-key sequence and the SQLAlchemy
        session (unit of work: staged rows, commit, rollback),
      - the five handlers of [/todos], written in a state-and-exception
        monad that follows the source statement by statement,
      - the retry loops [init_database], [create_tables] and [get_db], run
        against an oracle that says which attempt reaches the datastore,
    and proves the properties of the specification about them.

    The datastore itself is an external collaborator.  It is modelled by
    what PostgreSQL does for the schema the code declares.  The table is the
    list of its rows as a sequential scan meets them.  INSERT writes a row at
    the end, under a key drawn from a sequence that only advances and stops
    at 2147483647, the largest INTEGER.  UPDATE, issued for the rows a
    session has changed, writes the new version of the row at the end and
    drops the old one.  DELETE removes the rows with the given key.  A text
    with the code point U+0000 is refused.  A refused statement raises in
    [commit] and leaves the datastore as it was.  Otherwise datastore
    operations do not fail once a session has been obtained. *)

From Stdlib Require Import ZArith NArith QArith Qminmax Bool Ascii String List Lia.
From Stdlib Require Import DecimalString Permutation Qpower Lqa.
Import ListNotations.

#[local] Open Scope Z_scope.

(* ===================================================================== *)
(** * Python strings *)
(* ===================================================================== *)

Module PyStr.

(** A [str] is a sequence of Unicode code points. *)
Definition char := N.
Definition str := list char.

(** [Py_UNICODE_ISSPACE]: the code points [str.strip()] removes. *)
Definition isspace (c : char) : bool :=
  ((0x09 <=? c) && (c <=? 0x0D)
   || (0x1C <=? c) && (c <=? 0x20)
   || (c =? 0x85) || (c =? 0xA0) || (c =? 0x1680)
   || (0x2000 <=? c) && (c <=? 0x200A)
   || (c =? 0x2028) || (c =? 0x2029) || (c =? 0x202F)
   || (c =? 0x205F) || (c =? 0x3000))%N.

Fixpoint lstrip (s : str) : str :=
  match s with
  | [] => []
  | c :: s' => if isspace c then lstrip s' else s
  end.

Definition rstrip (s : str) : str := rev (lstrip (rev s)).

(** [s.strip()] *)
Definition strip (s : str) : str := rstrip (lstrip s).

(** [len(s)] *)
Definition len (s : str) : Z := Z.of_nat (List.length s).

(** [a == b] *)
Fixpoint eqb (a b : str) : bool :=
  match a, b with
  | [], [] => true
  | c :: a', d :: b' => (c =? d)%N && eqb a' b'
  | _, _ => false
  end.

(** Truth value of a string: [not s] holds of the empty string only. *)
Definition truthy (s : str) : bool :=
  match s with [] => false | _ :: _ => true end.

(** A literal, for examples: the code points of an ASCII string. *)
Fixpoint lit (s : string) : str :=
  match s with
  | EmptyString => []
  | String a s' => N_of_ascii a :: lit s'
  end.

End PyStr.
Import PyStr.

(* ===================================================================== *)
(** * Data model *)
(* ===================================================================== *)

(** [class TodoDB(Base)]: a row of the table [todos].  [completed] is a
    NOT NULL boolean column and [id] the integer primary key. *)
Module TodoDB.
Record t := mk { id : Z; text : str; completed : bool }.
End TodoDB.

(** [class TodoCreate(BaseModel)] *)
Module TodoCreate.
Record t := mk { text : str }.
End TodoCreate.

(** [class TodoUpdate(BaseModel)]: both fields default to [None]. *)
Module TodoUpdate.
Record t := mk { text : option str; completed : option bool }.
End TodoUpdate.

(** The datastore: the rows of [todos] as a sequential scan meets them, and
    the next value of the sequence behind the primary key. *)
Record Database := mkDatabase {
  todos : list TodoDB.t;
  todos_id_seq : Z
}.

(** The datastore right after [create_tables()]. *)
Definition empty_database : Database := mkDatabase [] 1.

(** The largest key of an INTEGER column: the sequence hands out no value
    beyond it. *)
Definition INT_MAX : Z := 2147483647.

(** A text PostgreSQL stores: one without the code point U+0000. *)
Definition storable (t : str) : bool :=
  forallb (fun c => negb (c =? 0)%N) t.

(** Two rows with the same key, text and flag. *)
Definition row_eqb (a b : TodoDB.t) : bool :=
  (TodoDB.id a =? TodoDB.id b)
  && PyStr.eqb (TodoDB.text a) (TodoDB.text b)
  && Bool.eqb (TodoDB.completed a) (TodoDB.completed b).

(** The row stands in the table as it is. *)
Definition stored (l : list TodoDB.t) (r : TodoDB.t) : bool :=
  existsb (row_eqb r) l.

(** A session (unit of work): the datastore it is bound to, the rows of the
    table as the session holds them (attribute assignments and deletions
    applied), and the objects added and not yet inserted. *)
Record Session := mkSession {
  bind_ : Database;
  rows : list TodoDB.t;
  pending : list TodoDB.t
}.

(** [SessionLocal()] *)
Definition SessionLocal (db : Database) : Session :=
  mkSession db (todos db) [].

(* ===================================================================== *)
(** * Exceptions and the handler monad *)
(* ===================================================================== *)

Inductive exn :=
| HTTPException (status_code : Z) (detail : string)
| Exception (msg : string).

Definition string_of_Z (z : Z) : string :=
  NilZero.string_of_int (Z.to_int z).

(** [str(e)] *)
Definition str_exn (e : exn) : string :=
  match e with
  | HTTPException c d => string_of_Z c ++ ": " ++ d
  | Exception m => m
  end.

(** A handler body runs in a session and either raises or returns. *)
Definition M (A : Type) : Type := Session -> Session * (exn + A).

Definition ret {A} (a : A) : M A := fun s => (s, inr a).

Definition bind {A B} (m : M A) (k : A -> M B) : M B :=
  fun s =>
    match m s with
    | (s', inl e) => (s', inl e)
    | (s', inr a) => k a s'
    end.

Definition raise {A} (e : exn) : M A := fun s => (s, inl e).

Declare Scope py_scope.
Delimit Scope py_scope with py.
Notation "x <- m ;; k" := (bind m (fun x => k))
  (at level 61, m at next level, right associativity) : py_scope.
Notation "m ;; k" := (bind m (fun _ => k))
  (at level 61, right associativity) : py_scope.
#[local] Open Scope py_scope.

(** [if c: stmt] *)
Definition when (c : bool) (m : M unit) : M unit :=
  if c then m else ret tt.

(** [try: body  except HTTPException: on_http; raise
                except Exception as e: on_exc; raise HTTPException(500, prefix + str(e))] *)
Definition try_except {A} (body : M A) (on_http on_exc : M unit) (prefix : string) : M A :=
  fun s =>
    match body s with
    | (s', inr a) => (s', inr a)
    | (s', inl (HTTPException c d)) =>
        (fst (on_http s'), inl (HTTPException c d))
    | (s', inl (Exception m)) =>
        (fst (on_exc s'), inl (HTTPException 500 (prefix ++ m)))
    end.

(** [try: body  except Exception as e: raise HTTPException(500, prefix + str(e))] *)
Definition try_except_all {A} (body : M A) (prefix : string) : M A :=
  fun s =>
    match body s with
    | (s', inr a) => (s', inr a)
    | (s', inl e) => (s', inl (HTTPException 500 (prefix ++ str_exn e)))
    end.

(* ===================================================================== *)
(** * The session operations the handlers use *)
(* ===================================================================== *)

Definition has_id (todo_id : Z) (r : TodoDB.t) : bool := TodoDB.id r =? todo_id.

(** The order in which a full scan hands the rows over.  The query below
    has no ORDER BY; PostgreSQL answers it with a sequential scan, which
    hands the rows over as they stand in the table ([heap_order] below). *)
Definition scan_order : Type := list TodoDB.t -> list TodoDB.t.

(** [db.query(TodoDB).all()] *)
Definition query_all (scan : scan_order) : M (list TodoDB.t) :=
  fun s => (s, inr (scan (rows s))).

(** [db.query(TodoDB).filter(TodoDB.id == todo_id).first()] *)
Definition query_first (todo_id : Z) : M (option TodoDB.t) :=
  fun s => (s, inr (find (has_id todo_id) (rows s))).

(** [db.add(TodoDB(text=..., completed=...))]: the object waits for the
    INSERT that [commit] sends.  It is kept under the key that INSERT will
    draw for it, the next value of the sequence after those of the objects
    already waiting; the handler does not read the key before [commit]. *)
Definition add (text : str) (completed : bool) : M TodoDB.t :=
  fun s =>
    let key := todos_id_seq (bind_ s) + Z.of_nat (List.length (pending s)) in
    let o := TodoDB.mk key text completed in
    (mkSession (bind_ s) (rows s) (pending s ++ [o]), inr o).

(** An attribute assignment reaches the session's row with the object's
    key. *)
Definition with_text (key : Z) (v : str) (r : TodoDB.t) : TodoDB.t :=
  if has_id key r then TodoDB.mk (TodoDB.id r) v (TodoDB.completed r) else r.

Definition with_completed (key : Z) (v : bool) (r : TodoDB.t) : TodoDB.t :=
  if has_id key r then TodoDB.mk (TodoDB.id r) (TodoDB.text r) v else r.

(** [todo.text = v] *)
Definition set_text (todo : TodoDB.t) (v : str) : M TodoDB.t :=
  fun s =>
    (mkSession (bind_ s) (map (with_text (TodoDB.id todo) v) (rows s))
               (pending s),
     inr (TodoDB.mk (TodoDB.id todo) v (TodoDB.completed todo))).

(** [todo.completed = v] *)
Definition set_completed (todo : TodoDB.t) (v : bool) : M TodoDB.t :=
  fun s =>
    (mkSession (bind_ s) (map (with_completed (TodoDB.id todo) v) (rows s))
               (pending s),
     inr (TodoDB.mk (TodoDB.id todo) (TodoDB.text todo) v)).

(** [db.delete(todo)] *)
Definition delete (todo : TodoDB.t) : M unit :=
  fun s =>
    (mkSession (bind_ s)
               (filter (fun r => negb (has_id (TodoDB.id todo) r)) (rows s))
               (pending s),
     inr tt).

(** The rows of the session that stand in the table as they are, and those
    that differ from what the table holds: the latter get an UPDATE. *)
Definition clean (s : Session) : list TodoDB.t :=
  filter (stored (todos (bind_ s))) (rows s).

Definition dirty (s : Session) : list TodoDB.t :=
  filter (fun r => negb (stored (todos (bind_ s)) r)) (rows s).

(** An UPDATE carries the columns that changed: the text of [r] is sent
    when it differs from the text the table holds under the key of [r]. *)
Definition text_written (table : list TodoDB.t) (r : TodoDB.t) : bool :=
  match find (has_id (TodoDB.id r)) table with
  | Some r0 => negb (PyStr.eqb (TodoDB.text r0) (TodoDB.text r))
  | None => true
  end.

(** What the datastore or its driver says when it refuses a statement.  Only
    the fact of the refusal matters below, not the wording. *)
Definition nul_refused : string :=
  "A string literal cannot contain NUL (0x00) characters.".
Definition sequence_exhausted : string :=
  "nextval: reached maximum value of sequence".

(** The statement of the flush that is refused, if any: an INSERT of a text
    with U+0000, an INSERT when the sequence has passed the largest key, an
    UPDATE sending a text with U+0000. *)
Definition flush_error (s : Session) : option string :=
  if negb (forallb (fun o => storable (TodoDB.text o)) (pending s))
  then Some nul_refused
  else if negb (forallb (fun o => TodoDB.id o <=? INT_MAX) (pending s))
  then Some sequence_exhausted
  else if negb (forallb (fun r => negb (text_written (todos (bind_ s)) r)
                                  || storable (TodoDB.text r)) (dirty s))
  then Some nul_refused
  else None.

(** [db.commit()]: the flush, then the commit.  Rows left as they are keep
    their place; new versions of changed rows and inserted rows are written
    at the end. *)
Definition commit : M unit :=
  fun s =>
    match flush_error s with
    | Some m => (s, inl (Exception m))
    | None =>
        let heap := clean s ++ dirty s ++ pending s in
        (mkSession
           (mkDatabase heap
              (todos_id_seq (bind_ s) + Z.of_nat (List.length (pending s))))
           heap [],
         inr tt)
    end.

(** [db.rollback()] *)
Definition rollback : M unit :=
  fun s => (mkSession (bind_ s) (todos (bind_ s)) [], inr tt).

(** [db.refresh(todo)]: reload the object by its key. *)
Definition refresh (todo : TodoDB.t) : M TodoDB.t :=
  fun s =>
    match find (has_id (TodoDB.id todo)) (rows s) with
    | Some r => (s, inr r)
    | None => (s, inl (Exception "Could not refresh instance"))
    end.

(* ===================================================================== *)
(** * The handlers *)
(* ===================================================================== *)

(** [GET /todos] *)
Definition get_todos (scan : scan_order) : M (list TodoDB.t) :=
  try_except_all
    (todos <- query_all scan ;;
     ret todos)
    "Failed to fetch todos: ".

(** [POST /todos] *)
Definition create_todo (todo : TodoCreate.t) : M TodoDB.t :=
  try_except
    (when (negb (truthy (TodoCreate.text todo))
           || negb (truthy (strip (TodoCreate.text todo))))
       (raise (HTTPException 400 "Todo text cannot be empty")) ;;
     when (len (strip (TodoCreate.text todo)) >? 500)
       (raise (HTTPException 400 "Todo text cannot exceed 500 characters")) ;;
     db_todo <- add (strip (TodoCreate.text todo)) false ;;
     commit ;;
     db_todo <- refresh db_todo ;;
     ret db_todo)
    rollback rollback "Failed to create todo: ".

(** [GET /todos/{todo_id}] *)
Definition get_todo (todo_id : Z) : M TodoDB.t :=
  try_except
    (todo <- query_first todo_id ;;
     match todo with
     | None => raise (HTTPException 404 "Todo not found")
     | Some todo => ret todo
     end)
    (ret tt) (ret tt) "Failed to fetch todo: ".

(** [PUT /todos/{todo_id}] *)
Definition update_todo (todo_id : Z) (todo_update : TodoUpdate.t) : M TodoDB.t :=
  try_except
    (todo <- query_first todo_id ;;
     match todo with
     | None => raise (HTTPException 404 "Todo not found")
     | Some todo =>
         todo <- match TodoUpdate.text todo_update with
                 | Some text =>
                     when (negb (truthy (strip text)))
                       (raise (HTTPException 400 "Todo text cannot be empty")) ;;
                     when (len (strip text) >? 500)
                       (raise (HTTPException 400 "Todo text cannot exceed 500 characters")) ;;
                     set_text todo (strip text)
                 | None => ret todo
                 end ;;
         todo <- match TodoUpdate.completed todo_update with
                 | Some c => set_completed todo c
                 | None => ret todo
                 end ;;
         commit ;;
         todo <- refresh todo ;;
         ret todo
     end)
    rollback rollback "Failed to update todo: ".

(** [DELETE /todos/{todo_id}] *)
Definition delete_todo (todo_id : Z) : M string :=
  try_except
    (todo <- query_first todo_id ;;
     match todo with
     | None => raise (HTTPException 404 "Todo not found")
     | Some todo =>
         delete todo ;;
         commit ;;
         ret "Todo deleted successfully"%string
     end)
    rollback rollback "Failed to delete todo: ".

(** One request served with a session that [get_db] yielded: the handler
    runs in a fresh session, and the session is closed afterwards, which
    drops whatever was staged and not committed. *)
Definition call {A} (handler : M A) (db : Database) : Database * (exn + A) :=
  let (s, r) := handler (SessionLocal db) in (bind_ s, r).

(** The requests of the [/todos] surface and what the handlers return. *)
Inductive request :=
| GetTodos
| CreateTodo (todo : TodoCreate.t)
| GetTodo (todo_id : Z)
| UpdateTodo (todo_id : Z) (todo_update : TodoUpdate.t)
| DeleteTodo (todo_id : Z).

Inductive response :=
| Todos (l : list TodoDB.t)
| Todo (r : TodoDB.t)
| Message (m : string).

Definition handler (scan : scan_order) (req : request) : M response :=
  match req with
  | GetTodos => l <- get_todos scan ;; ret (Todos l)
  | CreateTodo todo => r <- create_todo todo ;; ret (Todo r)
  | GetTodo todo_id => r <- get_todo todo_id ;; ret (Todo r)
  | UpdateTodo todo_id todo_update => r <- update_todo todo_id todo_update ;; ret (Todo r)
  | DeleteTodo todo_id => m <- delete_todo todo_id ;; ret (Message m)
  end.

(** A sequence of requests served one after the other; the exchange is
    logged in order, each request with its answer. *)
Definition exchange : Type := request * (exn + response).

Fixpoint serve_all (scan : scan_order) (db : Database) (reqs : list request)
  : Database * list exchange :=
  match reqs with
  | [] => (db, [])
  | req :: reqs' =>
      let (db1, r) := call (handler scan req) db in
      let (db2, log) := serve_all scan db1 reqs' in
      (db2, (req, r) :: log)
  end.

(* ===================================================================== *)
(** * The retry loops *)
(* ===================================================================== *)

(** What a loop does, in order.  An oracle [nat -> option string] tells,
    for the attempt of a given index, the message of the exception the
    datastore raises there, or [None] when the attempt goes through. *)
Inductive event :=
| Connect (attempt : nat) (ok : bool)    (* create_engine; SELECT 1 *)
| CreateAll (attempt : nat) (ok : bool)  (* Base.metadata.create_all *)
| Probe (attempt : nat) (ok : bool)      (* SessionLocal(); SELECT 1 *)
| Sleep (seconds : Q)                    (* time.sleep *)
| Handle (req : request).                (* the handler body *)

Definition oracle := nat -> option string.

(** [range(n)] *)
Definition range (n : nat) : list nat := seq 0 n.

(** [a * b] on the floats the loop meets.  From the default delay 2 these
    are dyadic rationals with few digits, which a double holds exactly, so
    the product is the exact one, kept in lowest terms.  From another first
    delay a double may round; nothing below states the length of a sleep
    for another first delay. *)
Definition fmul (a b : Q) : Q := Qred (a * b).

(** [min(a, b)]: [b] only when it is smaller. *)
Definition py_min (a b : Q) : Q := if Qle_bool a b then a else b.

(** The body of [for attempt in range(max_retries)] of [init_database],
    over the attempts that remain.  [time.sleep] raises ValueError for a
    negative delay; raised inside the [except] block, it leaves the
    function. *)
Fixpoint init_database_for (connect : oracle) (max_retries : nat)
         (attempts : list nat) (delay : Q) : list event * (exn + unit) :=
  match attempts with
  | [] => ([], inl (Exception "Failed to initialize database after all retries"))
  | attempt :: rest =>
      match connect attempt with
      | None => ([Connect attempt true], inr tt)
      | Some e =>
          if Z.of_nat attempt <? Z.of_nat max_retries - 1
          then
            if Qle_bool 0 delay
            then
              let (tr, r) := init_database_for connect max_retries rest
                               (py_min (fmul delay (3 # 2)) 30) in
              (Connect attempt false :: Sleep delay :: tr, r)
            else
              ([Connect attempt false],
               inl (Exception "sleep length must be non-negative"))
          else ([Connect attempt false], inl (Exception e))
      end
  end.

(** [def init_database(max_retries=10, delay=2)] *)
Definition init_database (connect : oracle) (max_retries : nat) (delay : Q)
  : list event * (exn + unit) :=
  init_database_for connect max_retries (range max_retries) delay.

Fixpoint create_tables_for (create_all : oracle) (max_retries : nat)
         (attempts : list nat) : list event * (exn + unit) :=
  match attempts with
  | [] => ([], inr tt)
  | attempt :: rest =>
      match create_all attempt with
      | None => ([CreateAll attempt true], inr tt)
      | Some e =>
          if Z.of_nat attempt <? Z.of_nat max_retries - 1
          then
            let (tr, r) := create_tables_for create_all max_retries rest in
            (CreateAll attempt false :: Sleep 2 :: tr, r)
          else ([CreateAll attempt false], inl (Exception e))
      end
  end.

(** [def create_tables(max_retries=5)] *)
Definition create_tables (create_all : oracle) (max_retries : nat)
  : list event * (exn + unit) :=
  create_tables_for create_all max_retries (range max_retries).

(** The module body: [engine = init_database()] inside a [try] that logs
    and re-raises, then [create_tables()].  An exception here ends the
    import, and with it the process. *)
Definition startup (connect create_all : oracle) : list event * (exn + unit) :=
  match init_database connect 10 2 with
  | (tr, inl e) => (tr, inl e)
  | (tr, inr _) =>
      let (tr', r) := create_tables create_all 5 in (tr ++ tr', r)
  end.

(** What the consumer of the generator does while it is suspended at its
    [yield]: the events of the request, and the exception it throws back
    into the generator, if the request raised one. *)
Definition consumer : Type := list event * option exn.

(** The loop of [get_db] over the attempts that remain.  [yielded] tells
    whether the generator has already yielded once.  The [yield] stands
    inside the [try], so an exception thrown in at the [yield] is caught by
    [except Exception] like a failed probe: rollback, close, and on the
    first two attempts [sleep(0.5)] and [continue].  A generator that yields
    a second time after an exception was thrown in is ended by the caller
    (contextlib) with a RuntimeError.  The result tells whether the
    generator yielded, and how the dependency ended. *)
Fixpoint get_db_for (probe : oracle) (max_retries : nat)
         (attempts : list nat) (use : consumer) (yielded : bool)
  : list event * (bool * (exn + unit)) :=
  match attempts with
  | [] => ([], (yielded, inl (Exception "generator didn't yield")))
  | attempt :: rest =>
      match probe attempt with
      | None =>
          if yielded
          then
            ([Probe attempt true],
             (true, inl (Exception "generator didn't stop after throw()")))
          else
            match snd use with
            | None => (Probe attempt true :: fst use, (true, inr tt))
            | Some _ =>
                if Z.of_nat attempt <? Z.of_nat max_retries - 1
                then
                  let (tr, r) := get_db_for probe max_retries rest use true in
                  (Probe attempt true :: fst use ++ Sleep (1 # 2) :: tr, r)
                else
                  (Probe attempt true :: fst use,
                   (true,
                    inl (HTTPException 503
                           "Database connection failed after multiple retries")))
            end
      | Some e =>
          if Z.of_nat attempt <? Z.of_nat max_retries - 1
          then
            let (tr, r) := get_db_for probe max_retries rest use yielded in
            (Probe attempt false :: Sleep (1 # 2) :: tr, r)
          else
            ([Probe attempt false],
             (yielded,
              inl (HTTPException 503
                     "Database connection failed after multiple retries")))
      end
  end.

(** [def get_db()], driven by its consumer. *)
Definition get_db (probe : oracle) (use : consumer)
  : list event * (bool * (exn + unit)) :=
  get_db_for probe 3 (range 3) use false.

(** One inbound request: the framework enters the dependency [get_db], runs
    the handler with the session it yields, and throws the handler's
    exception, if any, back into the generator.  The request is answered
    with the handler's value when the dependency ends normally, and with
    the exception of the dependency otherwise; the handler does not run
    when the generator never yields. *)
Definition serve (scan : scan_order) (probe : oracle) (req : request)
           (db : Database)
  : list event * (Database * (exn + response)) :=
  let (db', r) := call (handler scan req) db in
  let thrown := match r with inl e => Some e | inr _ => None end in
  match get_db probe ([Handle req], thrown) with
  | (tr, (false, inl e)) => (tr, (db, inl e))
  | (tr, (true, inl e)) => (tr, (db', inl e))
  | (tr, (_, inr _)) => (tr, (db', r))
  end.

(** The status of the answer to a request that ends in an exception: that
    of an HTTPException, and 500 for any other exception. *)
Definition status (e : exn) : Z :=
  match e with
  | HTTPException c _ => c
  | Exception _ => 500
  end.

(* ===================================================================== *)
(** * Health probes and the startup hook *)
(* ===================================================================== *)

(** The JSON object a health probe answers with. *)
Definition health : Type := list (string * string).

(** [GET /]: one session, one [SELECT 1], no second attempt.  The oracle is
    asked for its attempt 0. *)
Definition root (probe : oracle) : list event * (exn + health) :=
  match probe 0%nat with
  | None =>
      ([Probe 0 true],
       inr [("message", "Todo API is running"); ("status", "healthy");
            ("database", "connected"); ("version", "1.0.0")]%string)
  | Some e =>
      ([Probe 0 false],
       inl (HTTPException 503 ("Service unhealthy: " ++ e)))
  end.

(** [GET /health]: [return await root()] *)
Definition health_check (probe : oracle) : list event * (exn + health) :=
  root probe.

(** [@app.on_event("startup")]: one probe; its exception is re-raised. *)
Definition startup_event (probe : oracle) : list event * (exn + unit) :=
  match probe 0%nat with
  | None => ([Probe 0 true], inr tt)
  | Some e => ([Probe 0 false], inl (Exception e))
  end.

(** The way to a serving process: the module body, then the startup hook. *)
Definition boot (connect create_all probe : oracle) : list event * (exn + unit) :=
  match startup connect create_all with
  | (tr, inl e) => (tr, inl e)
  | (tr, inr _) => let (tr', r) := startup_event probe in (tr ++ tr', r)
  end.

(* ===================================================================== *)
(** * Reading a table, a log and a trace *)
(* ===================================================================== *)

(** The keys of the rows, in table order. *)
Definition ids (l : list TodoDB.t) : list Z := map TodoDB.id l.

(** The row [r] with the fields that [u] supplies replaced. *)
Definition patch (u : TodoUpdate.t) (r : TodoDB.t) : TodoDB.t :=
  TodoDB.mk (TodoDB.id r)
            (match TodoUpdate.text u with
             | Some t => strip t
             | None => TodoDB.text r
             end)
            (match TodoUpdate.completed u with
             | Some c => c
             | None => TodoDB.completed r
             end).

Definition patch_at (todo_id : Z) (u : TodoUpdate.t) (r : TodoDB.t) : TodoDB.t :=
  if has_id todo_id r then patch u r else r.

Definition not_found : exn := HTTPException 404 "Todo not found".
Definition text_empty : exn := HTTPException 400 "Todo text cannot be empty".
Definition text_too_long : exn :=
  HTTPException 400 "Todo text cannot exceed 500 characters".

(** A text that may be persisted: not empty, at most 500 characters. *)
Definition valid_text (t : str) : Prop := t <> [] /\ len t <= 500.

(** The storage invariant: the sequence is ahead of every key in the table,
    keys are positive and distinct, and every text is valid. *)
Definition store_ok (db : Database) : Prop :=
  0 < todos_id_seq db
  /\ NoDup (ids (todos db))
  /\ Forall (fun r => 0 < TodoDB.id r < todos_id_seq db
                      /\ valid_text (TodoDB.text r)) (todos db).

(** The item a successful create answered with. *)
Definition created (x : exchange) : option TodoDB.t :=
  match x with
  | (CreateTodo _, inr (Todo r)) => Some r
  | _ => None
  end.

(** The key a successful delete removed. *)
Definition deleted (x : exchange) : option Z :=
  match x with
  | (DeleteTodo todo_id, inr _) => Some todo_id
  | _ => None
  end.

Definition is_some {A} (o : option A) : bool :=
  match o with Some _ => true | None => false end.

(** N and M: the successful creates and deletes of a log. *)
Definition creates (log : list exchange) : nat :=
  List.length (filter (fun x => is_some (created x)) log).


(** The keys handed out by the creates of a log, in the order of the
    creates. *)
Definition created_ids (log : list exchange) : list Z :=
  flat_map (fun x => match created x with
                     | Some r => [TodoDB.id r]
                     | None => []
                     end) log.

(** The last state a log applied to the item with key [i]: a create or an
    update that answered with the item sets it, a delete clears it. *)
Definition apply_exchange (i : Z) (acc : option TodoDB.t) (x : exchange)
  : option TodoDB.t :=
  match x with
  | (CreateTodo _, inr (Todo r)) => if has_id i r then Some r else acc
  | (UpdateTodo _ _, inr (Todo r)) => if has_id i r then Some r else acc
  | (DeleteTodo todo_id, inr _) => if todo_id =? i then None else acc
  | _ => acc
  end.


(** The table after a flush without inserts, from the rows [v] a session
    holds: those that stand in the table [l] as they are, then the others. *)
Definition flushed (l v : list TodoDB.t) : list TodoDB.t :=
  filter (stored l) v ++ filter (fun r => negb (stored l r)) v.

(** An UPDATE of the flush sends a text with U+0000. *)
Definition update_refused (l v : list TodoDB.t) : bool :=
  negb (forallb (fun r => negb (text_written l r) || storable (TodoDB.text r))
                (filter (fun r => negb (stored l r)) v)).

(** The table after the row under [key] has been given the version [r]: as
    it was when [r] stands in it already, and otherwise without the old
    version and with [r] at the end. *)
Definition rewritten (key : Z) (r : TodoDB.t) (l : list TodoDB.t)
  : list TodoDB.t :=
  if stored l r then l
  else filter (fun r' => negb (has_id key r')) l ++ [r].





(** An exchange that leaves no mark: it created nothing, deleted nothing
    and is not the last state of any item. *)
Definition quiet (x : exchange) : Prop :=
  created x = None /\ deleted x = None
  /\ forall i acc, apply_exchange i acc x = acc.

(** The effect of one exchange on the datastore, as a step relation. *)
Inductive effect (db : Database) : exchange -> Database -> Prop :=
| effect_create (todo : TodoCreate.t) :
    valid_text (strip (TodoCreate.text todo)) ->
    effect db
      (CreateTodo todo,
       inr (Todo (TodoDB.mk (todos_id_seq db) (strip (TodoCreate.text todo)) false)))
      (mkDatabase
         (todos db ++ [TodoDB.mk (todos_id_seq db) (strip (TodoCreate.text todo)) false])
         (todos_id_seq db + 1))
| effect_update (todo_id : Z) (u : TodoUpdate.t) (old : TodoDB.t) :
    find (has_id todo_id) (todos db) = Some old ->
    (forall t, TodoUpdate.text u = Some t -> valid_text (strip t)) ->
    effect db
      (UpdateTodo todo_id u, inr (Todo (patch u old)))
      (mkDatabase (rewritten todo_id (patch u old) (todos db))
                  (todos_id_seq db))
| effect_delete (todo_id : Z) (old : TodoDB.t) (m : string) :
    find (has_id todo_id) (todos db) = Some old ->
    effect db
      (DeleteTodo todo_id, inr (Message m))
      (mkDatabase (filter (fun r => negb (has_id todo_id r)) (todos db))
                  (todos_id_seq db))
| effect_none (x : exchange) :
    quiet x -> effect db x db.


(** Counting what a trace did. *)
Definition connects (tr : list event) : nat :=
  List.length (filter (fun e => match e with Connect _ _ => true | _ => false end) tr).

Definition probes (tr : list event) : nat :=
  List.length (filter (fun e => match e with Probe _ _ => true | _ => false end) tr).

Definition handled (tr : list event) : nat :=
  List.length (filter (fun e => match e with Handle _ => true | _ => false end) tr).

Definition sleeps (tr : list event) : list Q :=
  flat_map (fun e => match e with Sleep d => [d] | _ => [] end) tr.

(** The delay before the retry that follows the failed attempt [k]: it
    starts at 2, grows by the factor 1.5 and is capped at 30. *)
Definition backoff (k : nat) : Q := Qmin (2 * (3 # 2) ^ Z.of_nat k) 30.

Definition create_alls (tr : list event) : nat :=
  List.length (filter (fun e => match e with CreateAll _ _ => true | _ => false end) tr).

(** The time a trace spends asleep. *)
Definition slept (tr : list event) : Q :=
  fold_right Qplus 0%Q (sleeps tr).

(** A text with no whitespace at either end. *)
Definition trimmed (t : str) : Prop := strip t = t.


(** The scan order of PostgreSQL: the rows as they stand in the table. *)
Definition heap_order : scan_order := fun l => l.

(** Concrete inputs used below. *)
Definition buy_milk : TodoCreate.t := TodoCreate.mk (lit "Buy milk").

(** A blank followed by 500 letters: 501 characters, 500 once trimmed. *)
Definition padded_501 : TodoCreate.t := TodoCreate.mk (32%N :: repeat 97%N 500).



(** Only the first attempt fails. *)
Definition flaky : oracle :=
  fun attempt => match attempt with O => Some "connection refused"%string | _ => None end.

(** Every attempt fails. *)
Definition refused : oracle := fun _ => Some "connection refused"%string.

(** Every attempt goes through. *)
Definition reachable : oracle := fun _ => None.

(* ===================================================================== *)
(** * Facts about [strip] *)
(* ===================================================================== *)

Section Strip.

Lemma lstrip_all_space (s : str) :
  forallb isspace s = true -> lstrip s = [].
Proof.
  induction s as [|c s IH]; simpl; [reflexivity|].
  intros H. apply andb_true_iff in H as [Hc Hs].
  rewrite Hc. auto.
Qed.

Lemma strip_all_space (s : str) :
  forallb isspace s = true -> strip s = [].
Proof.
  intros H. unfold strip, rstrip.
  rewrite (lstrip_all_space s H). reflexivity.
Qed.

Lemma lstrip_length (s : str) : (List.length (lstrip s) <= List.length s)%nat.
Proof.
  induction s as [|c s IH]; simpl; [lia|].
  destruct (isspace c); simpl; lia.
Qed.

Lemma strip_length (s : str) : len (strip s) <= len s.
Proof.
  unfold len, strip, rstrip.
  rewrite length_rev.
  pose proof (lstrip_length (rev (lstrip s))) as H1.
  rewrite length_rev in H1.
  pose proof (lstrip_length s). lia.
Qed.

Lemma strip_truthy (s : str) : truthy (strip s) = true -> truthy s = true.
Proof. destruct s; [discriminate | reflexivity]. Qed.

Lemma truthy_true (s : str) : s <> [] -> truthy s = true.
Proof. destruct s; [congruence | reflexivity]. Qed.

Lemma truthy_len (s : str) : 0 < len s -> truthy s = true.
Proof. destruct s; unfold len; simpl; [lia | reflexivity]. Qed.

End Strip.

(* ===================================================================== *)
(** * Looking rows up by key *)
(* ===================================================================== *)

Section Lookup.

Implicit Types (l : list TodoDB.t) (r o : TodoDB.t) (i j : Z).

Lemma has_id_true i r : has_id i r = true <-> TodoDB.id r = i.
Proof. unfold has_id. apply Z.eqb_eq. Qed.

Lemma has_id_false i r : has_id i r = false <-> TodoDB.id r <> i.
Proof. unfold has_id. apply Z.eqb_neq. Qed.

Lemma find_has_id i l r : find (has_id i) l = Some r -> TodoDB.id r = i /\ In r l.
Proof.
  intros H. apply find_some in H as [Hin Hid].
  split; [now apply has_id_true | assumption].
Qed.

Lemma find_absent i l : ~ In i (ids l) -> find (has_id i) l = None.
Proof.
  induction l as [|r l IH]; simpl; [reflexivity|].
  intros H. destruct (has_id i r) eqn:E.
  - apply has_id_true in E. tauto.
  - apply IH. tauto.
Qed.

Lemma find_none_absent i l : find (has_id i) l = None -> ~ In i (ids l).
Proof.
  intros H Hin. unfold ids in Hin. apply in_map_iff in Hin as [r [Hr Hin]].
  apply (find_none _ _ H) in Hin. apply has_id_false in Hin. congruence.
Qed.

Lemma find_snoc i l o :
  find (has_id i) (l ++ [o]) =
  match find (has_id i) l with
  | Some r => Some r
  | None => if has_id i o then Some o else None
  end.
Proof.
  induction l as [|r l IH]; simpl; [reflexivity|].
  destruct (has_id i r); [reflexivity | exact IH].
Qed.

(** A rewrite of rows that keeps every key. *)
Lemma find_map_keep i l (f : TodoDB.t -> TodoDB.t) :
  (forall r, TodoDB.id (f r) = TodoDB.id r) ->
  find (has_id i) (map f l) = option_map f (find (has_id i) l).
Proof.
  intros Hf. induction l as [|r l IH]; simpl; [reflexivity|].
  unfold has_id at 1. rewrite Hf. fold (has_id i r).
  destruct (has_id i r); [reflexivity | exact IH].
Qed.

Lemma find_remove i j l :
  find (has_id i) (filter (fun r => negb (has_id j r)) l) =
  if i =? j then None else find (has_id i) l.
Proof.
  induction l as [|r l IH]; simpl.
  - now destruct (i =? j).
  - destruct (has_id j r) eqn:Ej; simpl.
    + rewrite IH. destruct (Z.eqb_spec i j) as [->|Hij]; [reflexivity|].
      apply has_id_true in Ej.
      assert (has_id i r = false) as -> by (apply has_id_false; congruence).
      reflexivity.
    + rewrite IH. destruct (Z.eqb_spec i j) as [->|Hij].
      * now rewrite Ej.
      * reflexivity.
Qed.

Lemma ids_remove j l :
  ids (filter (fun r => negb (has_id j r)) l) =
  filter (fun i => negb (i =? j)) (ids l).
Proof.
  induction l as [|r l IH]; simpl; [reflexivity|].
  unfold has_id at 1. destruct (TodoDB.id r =? j); simpl; now rewrite IH.
Qed.

Lemma ids_map_keep l (f : TodoDB.t -> TodoDB.t) :
  (forall r, TodoDB.id (f r) = TodoDB.id r) -> ids (map f l) = ids l.
Proof.
  intros Hf. unfold ids. rewrite map_map. apply map_ext. exact Hf.
Qed.

End Lookup.

(* ===================================================================== *)
(** * Rows that stand in the table, and the flush *)
(* ===================================================================== *)

Section Flush.

Implicit Types (l v : list TodoDB.t) (r : TodoDB.t).

Lemma eqb_eq (a b : str) : PyStr.eqb a b = true <-> a = b.
Proof.
  revert b. induction a as [|c a IH]; intros [|d b]; cbn [PyStr.eqb];
    try (split; [discriminate | discriminate]); [tauto|].
  rewrite andb_true_iff, N.eqb_eq, IH. split.
  - intros [-> ->]. reflexivity.
  - intros H. injection H as -> ->. split; reflexivity.
Qed.

Lemma row_eqb_eq (a b : TodoDB.t) : row_eqb a b = true <-> a = b.
Proof.
  unfold row_eqb. rewrite !andb_true_iff, Z.eqb_eq, eqb_eq, Bool.eqb_true_iff.
  destruct a, b; cbn. split.
  - intros [[-> ->] ->]. reflexivity.
  - intros H. injection H as -> -> ->. repeat split.
Qed.

Lemma row_eqb_refl r : row_eqb r r = true.
Proof. now apply row_eqb_eq. Qed.

Lemma stored_In l r : stored l r = true <-> In r l.
Proof.
  unfold stored. rewrite existsb_exists. split.
  - intros (r' & Hin & Heq). apply row_eqb_eq in Heq. now subst.
  - intros Hin. exists r. split; [exact Hin | apply row_eqb_refl].
Qed.

Lemma stored_false l r : stored l r = false <-> ~ In r l.
Proof.
  rewrite <- stored_In. destruct (stored l r); split; congruence.
Qed.

(** Rows taken from the table stand in it: none of them is rewritten. *)
Lemma flush_sub l v :
  (forall r, In r v -> In r l) ->
  filter (stored l) v = v /\ filter (fun r => negb (stored l r)) v = [].
Proof.
  intros Hsub. induction v as [|r v IH]; cbn [filter]; [split; reflexivity|].
  assert (stored l r = true) as -> by (apply stored_In, Hsub; now left).
  cbn [negb]. destruct IH as [-> ->]; [intros r' Hr'; apply Hsub; now right|].
  split; reflexivity.
Qed.

Lemma flushed_sub l v : (forall r, In r v -> In r l) -> flushed l v = v.
Proof.
  intros Hsub. unfold flushed. destruct (flush_sub l v Hsub) as [-> ->].
  apply app_nil_r.
Qed.

Lemma update_refused_sub l v :
  (forall r, In r v -> In r l) -> update_refused l v = false.
Proof.
  intros Hsub. unfold update_refused.
  destruct (flush_sub l v Hsub) as [_ ->]. reflexivity.
Qed.

Lemma flushed_perm l v : Permutation (flushed l v) v.
Proof.
  unfold flushed. induction v as [|r v IH]; cbn [filter]; [constructor|].
  destruct (stored l r); cbn [negb app].
  - now constructor.
  - symmetry. apply Permutation_cons_app. now symmetry.
Qed.

Lemma flushed_In l v r : In r (flushed l v) <-> In r v.
Proof.
  split; apply Permutation_in;
    [apply flushed_perm | symmetry; apply flushed_perm].
Qed.

End Flush.

(* ===================================================================== *)
(** * What each handler does to the datastore *)
(* ===================================================================== *)

Lemma patch_id u r : TodoDB.id (patch u r) = TodoDB.id r.
Proof. reflexivity. Qed.

Lemma patch_at_id i u r : TodoDB.id (patch_at i u r) = TodoDB.id r.
Proof. unfold patch_at. now destruct (has_id i r). Qed.

(** The assignments of [update_todo], taken together, are [patch]. *)
Lemma assignments_patch (i : Z) (u : TodoUpdate.t) (l : list TodoDB.t) :
  map (patch_at i u) l =
  match TodoUpdate.text u, TodoUpdate.completed u with
  | Some t, Some c => map (with_completed i c) (map (with_text i (strip t)) l)
  | Some t, None => map (with_text i (strip t)) l
  | None, Some c => map (with_completed i c) l
  | None, None => l
  end.
Proof.
  destruct u as [[t|] [c|]]; cbn [TodoUpdate.text TodoUpdate.completed];
    rewrite ?map_map.
  1-3: apply map_ext; intros r;
    unfold patch_at, patch, with_completed, with_text;
    cbn [TodoUpdate.text TodoUpdate.completed];
    destruct (has_id i r) eqn:Er; cbn [TodoDB.id TodoDB.text TodoDB.completed];
    unfold has_id in *; cbn [TodoDB.id]; rewrite ?Er; reflexivity.
  rewrite <- (map_id l) at 2. apply map_ext; intros r.
  unfold patch_at, patch; cbn. destruct (has_id i r), r; reflexivity.
Qed.

Section Handlers.

Variable db : Database.

Lemma call_get_todos (scan : scan_order) :
  call (get_todos scan) db = (db, inr (scan (todos db))).
Proof. unfold call, SessionLocal. cbn. destruct db; reflexivity. Qed.

Lemma call_get_todo (todo_id : Z) :
  call (get_todo todo_id) db =
  (db, match find (has_id todo_id) (todos db) with
       | Some r => inr r
       | None => inl not_found
       end).
Proof.
  unfold call, get_todo, try_except, bind, query_first, SessionLocal; simpl.
  destruct (find (has_id todo_id) (todos db)); reflexivity.
Qed.

Lemma call_create_todo (todo : TodoCreate.t) :
  call (create_todo todo) db =
  let text := TodoCreate.text todo in
  if negb (truthy text) || negb (truthy (strip text)) then (db, inl text_empty)
  else if len (strip text) >? 500 then (db, inl text_too_long)
  else if negb (storable (strip text))
  then (db, inl (HTTPException 500 ("Failed to create todo: " ++ nul_refused)))
  else if INT_MAX <? todos_id_seq db
  then (db, inl (HTTPException 500
                   ("Failed to create todo: " ++ sequence_exhausted)))
  else
    let o := TodoDB.mk (todos_id_seq db) (strip text) false in
    (mkDatabase (todos db ++ [o]) (todos_id_seq db + 1),
     inr (match find (has_id (todos_id_seq db)) (todos db) with
          | Some r => r
          | None => o
          end)).
Proof.
  unfold call, create_todo, try_except, bind, when, SessionLocal.
  cbv zeta.
  destruct (negb (truthy (TodoCreate.text todo))
            || negb (truthy (strip (TodoCreate.text todo))));
    [destruct db; reflexivity|].
  destruct (len (strip (TodoCreate.text todo)) >? 500);
    [destruct db; reflexivity|].
  unfold ret, add, commit, flush_error, clean, dirty, refresh.
  cbn [bind_ rows pending List.length Z.of_nat app forallb TodoDB.text
       TodoDB.id fst snd].
  rewrite Z.add_0_r, !andb_true_r.
  destruct (flush_sub (todos db) (todos db) (fun r H => H)) as [Hclean Hdirty].
  rewrite Hclean, Hdirty. cbn [forallb negb app].
  destruct (storable (strip (TodoCreate.text todo))); cbn [negb];
    [|destruct db; reflexivity].
  rewrite Z.leb_antisym.
  destruct (INT_MAX <? todos_id_seq db); cbn [negb];
    [destruct db; reflexivity|].
  cbn [bind_ rows todos todos_id_seq fst snd TodoDB.id].
  rewrite find_snoc.
  destruct (find (has_id (todos_id_seq db)) (todos db)); cbn.
  - reflexivity.
  - unfold has_id; cbn. rewrite Z.eqb_refl. reflexivity.
Qed.

Lemma call_delete_todo (todo_id : Z) :
  call (delete_todo todo_id) db =
  match find (has_id todo_id) (todos db) with
  | None => (db, inl not_found)
  | Some _ =>
      (mkDatabase (filter (fun r => negb (has_id todo_id r)) (todos db))
                  (todos_id_seq db),
       inr "Todo deleted successfully"%string)
  end.
Proof.
  unfold call, delete_todo, try_except, bind, query_first, SessionLocal.
  cbn [rows].
  destruct (find (has_id todo_id) (todos db)) as [r|] eqn:E.
  2:{ destruct db; reflexivity. }
  apply find_has_id in E as [Hid _].
  unfold delete, commit, flush_error, clean, dirty, ret.
  cbn [bind_ rows pending forallb negb List.length Z.of_nat fst snd].
  rewrite Hid.
  set (F := filter (fun r0 => negb (has_id todo_id r0)) (todos db)).
  assert (Hsub : forall r0, In r0 F -> In r0 (todos db))
    by (intros r0 H; apply filter_In in H; tauto).
  destruct (flush_sub (todos db) F Hsub) as [-> ->].
  cbn [forallb negb app fst snd bind_]. rewrite app_nil_r, Z.add_0_r.
  reflexivity.
Qed.

(** An update on a stored id whose text passes the two checks: the flush
    and the reload. *)
Lemma call_update_todo (todo_id : Z) (u : TodoUpdate.t) :
  call (update_todo todo_id u) db =
  match find (has_id todo_id) (todos db) with
  | None => (db, inl not_found)
  | Some old =>
      let view := map (patch_at todo_id u) (todos db) in
      let done :=
        if update_refused (todos db) view
        then (db, inl (HTTPException 500
                         ("Failed to update todo: " ++ nul_refused)))
        else
          (mkDatabase (flushed (todos db) view) (todos_id_seq db),
           match find (has_id todo_id) (flushed (todos db) view) with
           | Some r => inr r
           | None => inl (HTTPException 500
                            "Failed to update todo: Could not refresh instance")
           end) in
      match TodoUpdate.text u with
      | Some text =>
          if negb (truthy (strip text)) then (db, inl text_empty)
          else if len (strip text) >? 500 then (db, inl text_too_long)
          else done
      | None => done
      end
  end.
Proof.
  destruct (find (has_id todo_id) (todos db)) as [old|] eqn:E.
  2:{ unfold call, update_todo, try_except, bind, query_first, SessionLocal.
      cbn [rows]. rewrite E. destruct db; reflexivity. }
  pose proof (find_has_id _ _ _ E) as [Hid _].
  unfold call, update_todo, try_except, bind, query_first, SessionLocal.
  cbn [rows]. rewrite E. cbv zeta.
  pose proof (assignments_patch todo_id u (todos db)) as Hrows.
  destruct u as [[t|] [c|]]; cbn [TodoUpdate.text TodoUpdate.completed] in *.
  all: try (unfold when at 1; destruct (negb (truthy (strip t)));
            [destruct db; reflexivity|];
            unfold when at 1; destruct (len (strip t) >? 500);
            [destruct db; reflexivity|]).
  all: unfold set_text, set_completed, commit, flush_error, clean, dirty,
         refresh, ret;
    cbn [rows bind_ pending fst snd TodoDB.id todos todos_id_seq
         forallb negb List.length Z.of_nat];
    rewrite Hid, Hrows.
  all: unfold update_refused, flushed.
  all: match goal with
       | |- context [forallb ?f ?l] => destruct (forallb f l)
       end; cbn [negb app bind_ rows fst snd todos todos_id_seq TodoDB.id];
    [|destruct db; reflexivity].
  all: rewrite app_nil_r, Z.add_0_r.
  all: match goal with
       | |- context [find ?f ?l] => destruct (find f l)
       end; reflexivity.
Qed.

End Handlers.

(* ===================================================================== *)
(** * A table with distinct keys *)
(* ===================================================================== *)

Section DistinctKeys.

Variable l : list TodoDB.t.
Hypothesis Hnd : NoDup (ids l).

Lemma only_row (a b : TodoDB.t) :
  In a l -> In b l -> TodoDB.id a = TodoDB.id b -> a = b.
Proof.
  clear - Hnd. induction l as [|r l' IH]; [intros []|].
  cbn [ids map] in Hnd. apply NoDup_cons_iff in Hnd as [Hnot Hnd'].
  intros [->|Ha] [->|Hb] Heq.
  - reflexivity.
  - exfalso. apply Hnot. rewrite Heq. now apply in_map.
  - exfalso. apply Hnot. rewrite <- Heq. now apply in_map.
  - now apply IH.
Qed.

Lemma find_in_nodup (r : TodoDB.t) :
  In r l -> find (has_id (TodoDB.id r)) l = Some r.
Proof.
  intros Hin.
  destruct (find (has_id (TodoDB.id r)) l) as [r'|] eqn:E.
  - apply find_has_id in E as [Hid Hin']. f_equal. now apply only_row.
  - exfalso. apply (find_none_absent _ _ E). now apply in_map.
Qed.

Lemma filter_has_id_single (i : Z) (old : TodoDB.t) :
  find (has_id i) l = Some old -> filter (has_id i) l = [old].
Proof.
  clear - Hnd. induction l as [|r l' IH]; [discriminate|].
  cbn [ids map] in Hnd. apply NoDup_cons_iff in Hnd as [Hnot Hnd'].
  cbn [find filter]. destruct (has_id i r) eqn:E.
  - intros H. injection H as <-. f_equal.
    apply has_id_true in E.
    destruct (filter (has_id i) l') as [|a rest] eqn:F; [reflexivity|].
    assert (Ha : In a (filter (has_id i) l')) by (rewrite F; now left).
    apply filter_In in Ha as [Ha Hia]. apply has_id_true in Hia.
    exfalso. apply Hnot. rewrite E, <- Hia. now apply in_map.
  - intros H. now apply IH.
Qed.


(** The flush of an update, in a table with distinct keys. *)
Lemma view_flush (i : Z) (u : TodoUpdate.t) (old : TodoDB.t) :
  find (has_id i) l = Some old ->
  flushed l (map (patch_at i u) l) = rewritten i (patch u old) l
  /\ update_refused l (map (patch_at i u) l)
     = negb (stored l (patch u old))
       && negb (negb (text_written l (patch u old))
                || storable (TodoDB.text (patch u old))).
Proof.
  intros Hold. pose proof (find_has_id _ _ _ Hold) as [Hid Hin].
  unfold rewritten. destruct (stored l (patch u old)) eqn:Est.
  - apply stored_In in Est.
    assert (Hsame : patch u old = old)
      by (apply only_row; [exact Est | exact Hin | apply patch_id]).
    assert (Hmap : map (patch_at i u) l = l).
    { rewrite <- (map_id l) at 2. apply map_ext_in. intros r Hr.
      unfold patch_at. destruct (has_id i r) eqn:E; [|reflexivity].
      apply has_id_true in E.
      assert (r = old) as -> by (apply only_row; [exact Hr | exact Hin | congruence]).
      exact Hsame. }
    rewrite Hmap, (flushed_sub l l (fun r H => H)),
      (update_refused_sub l l (fun r H => H)). split; reflexivity.
  - apply stored_false in Est.
    assert (Hsplit : forall l', (forall r, In r l' -> In r l) ->
              filter (stored l) (map (patch_at i u) l')
              = filter (fun r => negb (has_id i r)) l'
              /\ filter (fun r => negb (stored l r)) (map (patch_at i u) l')
                 = map (patch u) (filter (has_id i) l')).
    { induction l' as [|r l' IH]; intros Hsub; [split; reflexivity|].
      destruct IH as [IH1 IH2]; [intros a Ha; apply Hsub; now right|].
      cbn [map filter].
      destruct (has_id i r) eqn:E; cbn [negb].
      - assert (patch_at i u r = patch u r) as ->
            by (unfold patch_at; now rewrite E).
        apply has_id_true in E.
        assert (r = old) as ->
            by (apply only_row; [apply Hsub; now left | exact Hin | congruence]).
        assert (stored l (patch u old) = false) as ->
            by (now apply stored_false).
        cbn [negb map]. rewrite IH1, IH2. split; reflexivity.
      - assert (patch_at i u r = r) as ->
            by (unfold patch_at; now rewrite E).
        assert (stored l r = true) as ->
            by (apply stored_In, Hsub; now left).
        cbn [negb]. rewrite IH1, IH2. split; reflexivity. }
    destruct (Hsplit l (fun r H => H)) as [H1 H2].
    unfold flushed, update_refused.
    rewrite H1, H2, (filter_has_id_single i old Hold).
    cbn [map forallb]. rewrite andb_true_r. split; reflexivity.
Qed.

Lemma find_rewritten (i j : Z) (p old : TodoDB.t) :
  find (has_id i) l = Some old ->
  TodoDB.id p = i ->
  find (has_id j) (rewritten i p l)
  = if has_id j p then Some p else find (has_id j) l.
Proof.
  intros Hold Hp. pose proof (find_has_id _ _ _ Hold) as [Hid Hin].
  unfold rewritten. destruct (stored l p) eqn:Est.
  - apply stored_In in Est.
    assert (p = old) as -> by (apply only_row; [exact Est | exact Hin | congruence]).
    destruct (has_id j old) eqn:E; [|reflexivity].
    apply has_id_true in E. rewrite <- E. now apply find_in_nodup.
  - rewrite find_snoc, find_remove.
    destruct (has_id j p) eqn:E.
    + apply has_id_true in E.
      assert ((j =? i) = true) as -> by (apply Z.eqb_eq; congruence).
      reflexivity.
    + apply has_id_false in E.
      assert ((j =? i) = false) as -> by (apply Z.eqb_neq; congruence).
      now destruct (find (has_id j) l).
Qed.

End DistinctKeys.

(** An update of a stored row in a table with distinct keys, past the two
    checks of the text. *)
Lemma update_flushed (db : Database) (todo_id : Z) (u : TodoUpdate.t)
      (old : TodoDB.t) :
  NoDup (ids (todos db)) ->
  find (has_id todo_id) (todos db) = Some old ->
  (forall t, TodoUpdate.text u = Some t -> valid_text (strip t)) ->
  call (update_todo todo_id u) db =
  if negb (stored (todos db) (patch u old))
     && negb (negb (text_written (todos db) (patch u old))
              || storable (TodoDB.text (patch u old)))
  then (db, inl (HTTPException 500 ("Failed to update todo: " ++ nul_refused)))
  else (mkDatabase (rewritten todo_id (patch u old) (todos db))
                   (todos_id_seq db),
        inr (patch u old)).
Proof.
  intros Hnd Hold Hvalid.
  pose proof (find_has_id _ _ _ Hold) as [Hid _].
  rewrite call_update_todo, Hold. cbv zeta.
  destruct (view_flush _ Hnd todo_id u old Hold) as [-> ->].
  assert (Hfind : find (has_id todo_id)
                    (rewritten todo_id (patch u old) (todos db))
                  = Some (patch u old)).
  { rewrite (find_rewritten _ Hnd todo_id todo_id (patch u old) old Hold)
      by (now rewrite patch_id).
    unfold has_id. rewrite patch_id, Hid, Z.eqb_refl. reflexivity. }
  rewrite Hfind.
  destruct (TodoUpdate.text u) as [t|] eqn:Et; [|reflexivity].
  destruct (Hvalid t eq_refl) as [Hne Hlen].
  rewrite (truthy_true _ Hne). cbn [negb].
  destruct (len (strip t) >? 500) eqn:E; [apply Z.gtb_lt in E; lia|].
  reflexivity.
Qed.


(* ===================================================================== *)
(** * Create, read, update, delete: the contract of the handlers *)
(* ===================================================================== *)

Lemma store_ok_fresh (db : Database) :
  store_ok db -> ~ In (todos_id_seq db) (ids (todos db)).
Proof.
  intros (_ & _ & Hall) Hin. unfold ids in Hin.
  apply in_map_iff in Hin as (r & Hr & Hin).
  rewrite Forall_forall in Hall. specialize (Hall r Hin). lia.
Qed.

Lemma store_ok_empty : store_ok empty_database.
Proof. repeat split; simpl; try lia; constructor. Qed.

(** A create is refused with the datastore untouched, or it stores the
    trimmed text under the current value of the sequence. *)
Lemma create_shape (db : Database) (todo : TodoCreate.t) :
  store_ok db ->
  (exists e, call (create_todo todo) db = (db, inl e))
  \/ call (create_todo todo) db
     = (mkDatabase
          (todos db ++ [TodoDB.mk (todos_id_seq db)
                                  (strip (TodoCreate.text todo)) false])
          (todos_id_seq db + 1),
        inr (TodoDB.mk (todos_id_seq db) (strip (TodoCreate.text todo)) false)).
Proof.
  intros Hok. rewrite call_create_todo. cbv zeta.
  destruct (negb (truthy (TodoCreate.text todo))
            || negb (truthy (strip (TodoCreate.text todo))));
    [left; eexists; reflexivity|].
  destruct (len (strip (TodoCreate.text todo)) >? 500);
    [left; eexists; reflexivity|].
  destruct (negb (storable (strip (TodoCreate.text todo))));
    [left; eexists; reflexivity|].
  destruct (INT_MAX <? todos_id_seq db);
    [left; eexists; reflexivity|].
  right. now rewrite (find_absent _ _ (store_ok_fresh db Hok)).
Qed.






(** The reload after the flush of an update finds the row. *)
Lemma update_reloads (l : list TodoDB.t) (i : Z) (u : TodoUpdate.t)
      (old : TodoDB.t) :
  find (has_id i) l = Some old ->
  find (has_id i) (flushed l (map (patch_at i u) l)) <> None.
Proof.
  intros Hold Hnone. apply find_has_id in Hold as [Hid Hin].
  apply (find_none_absent _ _ Hnone). unfold ids.
  apply in_map_iff. exists (patch_at i u old). split.
  - now rewrite patch_at_id.
  - apply flushed_In. now apply in_map.
Qed.

(** C4.  A create whose text is empty or made of whitespace only is refused
    with status 400, and the datastore (table and sequence) is as before. *)
Theorem create_blank_rejected (db : Database) (todo : TodoCreate.t) :
  forallb isspace (TodoCreate.text todo) = true ->
  call (create_todo todo) db
  = (db, inl (HTTPException 400 "Todo text cannot be empty")).
Proof.
  intros Hblank. rewrite call_create_todo. cbv zeta.
  rewrite (strip_all_space _ Hblank). cbn [truthy negb].
  rewrite orb_true_r. reflexivity.
Qed.

Lemma create_blank_rejected_witness :
  call (create_todo (TodoCreate.mk (lit "   "))) empty_database
  = (empty_database, inl (HTTPException 400 "Todo text cannot be empty")).
Proof.
  apply (create_blank_rejected empty_database (TodoCreate.mk (lit "   "))).
  reflexivity.
Defined.

(** C5, as stated, fails: the length is checked after trimming, so a text of
    501 characters that trims to 500 is accepted and stored. *)
Lemma create_padded_501_accepted :
  len (TodoCreate.text padded_501) = 501
  /\ call (create_todo padded_501) empty_database
     = (mkDatabase [TodoDB.mk 1 (repeat 97%N 500) false] 2,
        inr (TodoDB.mk 1 (repeat 97%N 500) false)).
Proof. split; vm_compute; reflexivity. Qed.

(** C5, amended.  A create whose text is longer than 500 characters once
    trimmed (501, for one) is refused with status 400, and the datastore is
    as before. *)
Theorem create_overlong_rejected (db : Database) (todo : TodoCreate.t) :
  500 < len (strip (TodoCreate.text todo)) ->
  call (create_todo todo) db
  = (db, inl (HTTPException 400 "Todo text cannot exceed 500 characters")).
Proof.
  intros Hlong. rewrite call_create_todo. cbv zeta.
  assert (Ht : truthy (strip (TodoCreate.text todo)) = true)
    by (apply truthy_len; lia).
  rewrite Ht, (strip_truthy _ Ht). cbn [negb orb].
  destruct (len (strip (TodoCreate.text todo)) >? 500) eqn:E; [reflexivity|].
  rewrite Z.gtb_ltb in E. apply Z.ltb_ge in E. lia.
Qed.

Lemma create_overlong_rejected_witness :
  len (strip (repeat 97%N 501)) = 501
  /\ call (create_todo (TodoCreate.mk (repeat 97%N 501))) empty_database
     = (empty_database,
        inl (HTTPException 400 "Todo text cannot exceed 500 characters")).
Proof.
  split; [vm_compute; reflexivity|].
  apply (create_overlong_rejected empty_database
           (TodoCreate.mk (repeat 97%N 501))).
  vm_compute. reflexivity.
Defined.

(** C7.  Once a delete of an id has succeeded, reading that id answers 404,
    and deleting it again answers 404 and leaves the datastore as it is. *)
Theorem delete_then_not_found (db db' : Database) (todo_id : Z) (m : string) :
  call (delete_todo todo_id) db = (db', inr m) ->
  call (get_todo todo_id) db' = (db', inl (HTTPException 404 "Todo not found"))
  /\ call (delete_todo todo_id) db'
     = (db', inl (HTTPException 404 "Todo not found")).
Proof.
  rewrite call_delete_todo.
  destruct (find (has_id todo_id) (todos db)) as [r|] eqn:E; [|discriminate].
  intros H. injection H as <- _.
  assert (Hgone : find (has_id todo_id)
                    (filter (fun r => negb (has_id todo_id r)) (todos db))
                  = None)
    by (rewrite find_remove, Z.eqb_refl; reflexivity).
  rewrite call_get_todo, call_delete_todo. cbn [todos].
  rewrite Hgone. split; reflexivity.
Qed.

Lemma delete_then_not_found_witness :
  let db := mkDatabase [TodoDB.mk 1 (lit "Buy milk") false] 2 in
  let db' := mkDatabase [] 2 in
  call (delete_todo 1) db = (db', inr "Todo deleted successfully"%string)
  /\ call (get_todo 1) db' = (db', inl (HTTPException 404 "Todo not found"))
  /\ call (delete_todo 1) db' = (db', inl (HTTPException 404 "Todo not found")).
Proof.
  cbv zeta. split; [reflexivity|].
  apply (delete_then_not_found
           (mkDatabase [TodoDB.mk 1 (lit "Buy milk") false] 2)
           (mkDatabase [] 2) 1 "Todo deleted successfully").
  reflexivity.
Defined.

(** Deleting an id that is not in the table answers 404 and changes
    nothing, however often it is repeated. *)
Lemma delete_absent_not_found (db : Database) (todo_id : Z) :
  ~ In todo_id (ids (todos db)) ->
  call (delete_todo todo_id) db = (db, inl not_found).
Proof.
  intros Habs. rewrite call_delete_todo, (find_absent _ _ Habs). reflexivity.
Qed.

(** C10.  Updating an id that is not in the table answers 404 whatever the
    body holds: the lookup comes before the validation of the text, so an
    invalid text with an absent id is a 404 and not a 400. *)
Theorem update_absent_not_found (db : Database) (todo_id : Z) (u : TodoUpdate.t) :
  ~ In todo_id (ids (todos db)) ->
  call (update_todo todo_id u) db
  = (db, inl (HTTPException 404 "Todo not found")).
Proof.
  intros Habs. rewrite call_update_todo, (find_absent _ _ Habs). reflexivity.
Qed.

Lemma update_absent_not_found_witness :
  call (update_todo 7 (TodoUpdate.mk (Some (lit "  ")) None))
       (mkDatabase [TodoDB.mk 1 (lit "Buy milk") false] 2)
  = (mkDatabase [TodoDB.mk 1 (lit "Buy milk") false] 2,
     inl (HTTPException 404 "Todo not found")).
Proof.
  apply (update_absent_not_found
           (mkDatabase [TodoDB.mk 1 (lit "Buy milk") false] 2) 7
           (TodoUpdate.mk (Some (lit "  ")) None)).
  simpl. intros [H|[]]. discriminate H.
Defined.

(* ===================================================================== *)
(** * One exchange as a step on the datastore *)
(* ===================================================================== *)

Lemma call_fmap {A B} (h : M A) (f : A -> B) (db : Database) :
  call (x <- h ;; ret (f x)) db =
  (fst (call h db),
   match snd (call h db) with
   | inl e => inl e
   | inr a => inr (f a)
   end).
Proof.
  unfold call, bind, ret.
  destruct (h (SessionLocal db)) as [s [e|a]]; reflexivity.
Qed.

(** Every request is one of the four steps. *)
Lemma handler_effect (scan : scan_order) (db : Database) (req : request) :
  store_ok db ->
  effect db (req, snd (call (handler scan req) db)) (fst (call (handler scan req) db)).
Proof.
  intros Hok.
  destruct req as [|todo|todo_id|todo_id u|todo_id]; cbn [handler];
    rewrite call_fmap.
  - rewrite call_get_todos. apply effect_none. repeat split.
  - rewrite call_create_todo. cbv zeta.
    destruct (negb (truthy (TodoCreate.text todo))
              || negb (truthy (strip (TodoCreate.text todo)))) eqn:Et;
      [apply effect_none; repeat split|].
    destruct (len (strip (TodoCreate.text todo)) >? 500) eqn:El;
      [apply effect_none; repeat split|].
    destruct (negb (storable (strip (TodoCreate.text todo))));
      [apply effect_none; repeat split|].
    destruct (INT_MAX <? todos_id_seq db);
      [apply effect_none; repeat split|].
    rewrite (find_absent _ _ (store_ok_fresh db Hok)). cbn [fst snd].
    apply effect_create. split.
    + apply orb_false_iff in Et as [_ Et]. apply negb_false_iff in Et.
      destruct (strip (TodoCreate.text todo)); [discriminate Et | discriminate].
    + rewrite Z.gtb_ltb in El. apply Z.ltb_ge in El. exact El.
  - rewrite call_get_todo. cbn [fst snd].
    destruct (find (has_id todo_id) (todos db));
      apply effect_none; repeat split.
  - destruct (find (has_id todo_id) (todos db)) as [old|] eqn:E.
    2:{ rewrite call_update_todo, E. apply effect_none. repeat split. }
    assert (Hvalid : (forall t, TodoUpdate.text u = Some t -> valid_text (strip t))
                     \/ exists e, call (update_todo todo_id u) db = (db, inl e)).
    { destruct (TodoUpdate.text u) as [t|] eqn:Eu;
        [|left; intros t Ht; discriminate Ht].
      destruct (negb (truthy (strip t))) eqn:Et.
      { right. rewrite call_update_todo, E, Eu. cbv zeta. rewrite Et.
        eexists. reflexivity. }
      destruct (len (strip t) >? 500) eqn:El.
      { right. rewrite call_update_todo, E, Eu. cbv zeta. rewrite Et, El.
        eexists. reflexivity. }
      left. intros t' Ht'. injection Ht' as <-. split.
      - apply negb_false_iff in Et.
        destruct (strip t); [discriminate Et | discriminate].
      - rewrite Z.gtb_ltb in El. apply Z.ltb_ge in El. exact El. }
    destruct Hvalid as [Hvalid | (e & ->)];
      [|apply effect_none; repeat split].
    destruct Hok as (_ & Hnd & _).
    rewrite (update_flushed db todo_id u old Hnd E Hvalid).
    destruct (negb (stored (todos db) (patch u old))
              && negb (negb (text_written (todos db) (patch u old))
                       || storable (TodoDB.text (patch u old))));
      [apply effect_none; repeat split|].
    cbn [fst snd]. now apply effect_update.
  - rewrite call_delete_todo.
    destruct (find (has_id todo_id) (todos db)) as [old|] eqn:E;
      [|apply effect_none; repeat split].
    cbn [fst snd]. now apply effect_delete with (old := old).
Qed.

Section Effects.

Variables (db db' : Database) (x : exchange).
Hypothesis Hok : store_ok db.
Hypothesis Heff : effect db x db'.

(** The storage invariant is kept and the sequence never goes back. *)
Lemma effect_store_ok :
  store_ok db' /\ todos_id_seq db <= todos_id_seq db'.
Proof.
  destruct Hok as (Hseq & Hnd & Hall).
  pose proof (store_ok_fresh db Hok) as Hfresh.
  destruct Heff as [todo Hvalid | todo_id u old Hold Hvalid
                   | todo_id old m Hold | x' Hquiet].
  - split; [|cbn; lia]. unfold store_ok. cbn [todos todos_id_seq].
    split; [lia|]. split.
    + unfold ids. rewrite map_app. cbn [map TodoDB.id].
      apply NoDup_app; [exact Hnd | repeat constructor; intros [] | ].
      intros i Hin [<-|[]]. exact (Hfresh Hin).
    + apply Forall_app. split.
      * eapply Forall_impl; [|exact Hall]. cbn. intros r [Hr Ht].
        split; [lia | exact Ht].
      * constructor; [|constructor]. cbn. split; [lia | exact Hvalid].
  - split; [|cbn; lia]. unfold store_ok. cbn [todos todos_id_seq].
    split; [exact Hseq|].
    pose proof (find_has_id _ _ _ Hold) as [Hid Hin].
    rewrite Forall_forall in Hall.
    unfold rewritten. destruct (stored (todos db) (patch u old));
      [split; [exact Hnd | now apply Forall_forall]|].
    split.
    + unfold ids. rewrite map_app. fold (ids (filter (fun r' => negb (has_id todo_id r')) (todos db))).
      rewrite ids_remove. cbn [map]. rewrite patch_id, Hid.
      apply NoDup_app; [now apply NoDup_filter | repeat constructor; intros [] |].
      intros i Hi [<-|[]]. apply filter_In in Hi as [_ Hi].
      rewrite Z.eqb_refl in Hi. discriminate Hi.
    + apply Forall_app. split.
      * apply Forall_forall. intros r Hr. apply filter_In in Hr as [Hr _].
        exact (Hall r Hr).
      * constructor; [|constructor]. rewrite patch_id.
        destruct (Hall old Hin) as [Hb Ht]. split; [exact Hb|].
        unfold patch. cbn [TodoDB.text].
        destruct (TodoUpdate.text u) as [t|] eqn:Eu; [|exact Ht].
        exact (Hvalid t eq_refl).
  - split; [|cbn; lia]. unfold store_ok. cbn [todos todos_id_seq].
    split; [exact Hseq|]. split.
    + rewrite ids_remove. apply NoDup_filter. exact Hnd.
    + apply Forall_forall. intros r Hr. apply filter_In in Hr as [Hr _].
      rewrite Forall_forall in Hall. exact (Hall r Hr).
  - split; [exact Hok | lia].
Qed.






End Effects.


(* ===================================================================== *)
(** * Sequences of requests *)
(* ===================================================================== *)

Lemma serve_all_cons (scan : scan_order) (db : Database) (req : request) (reqs : list request) :
  serve_all scan db (req :: reqs) =
  (fst (serve_all scan (fst (call (handler scan req) db)) reqs),
   (req, snd (call (handler scan req) db))
     :: snd (serve_all scan (fst (call (handler scan req) db)) reqs)).
Proof.
  cbn [serve_all]. destruct (call (handler scan req) db) as [db1 r]. cbn [fst snd].
  destruct (serve_all scan db1 reqs). reflexivity.
Qed.




Lemma created_ids_cons (x : exchange) (log : list exchange) :
  created_ids (x :: log) = created_ids [x] ++ created_ids log.
Proof. unfold created_ids. cbn. now rewrite app_nil_r. Qed.

Lemma creates_cons (x : exchange) (log : list exchange) :
  creates (x :: log) = (creates [x] + creates log)%nat.
Proof. unfold creates. cbn. now destruct (is_some (created x)). Qed.


(** The invariant holds along any sequence of requests, and the sequence
    never goes back. *)
Lemma serve_all_store_ok (scan : scan_order) (reqs : list request) (db : Database) :
  store_ok db ->
  store_ok (fst (serve_all scan db reqs))
  /\ todos_id_seq db <= todos_id_seq (fst (serve_all scan db reqs)).
Proof.
  revert db. induction reqs as [|req reqs IH]; intros db Hok.
  - cbn. split; [exact Hok | lia].
  - rewrite serve_all_cons. cbn [fst].
    destruct (effect_store_ok _ _ _ Hok (handler_effect scan db req Hok)) as [Hok1 Hle].
    destruct (IH _ Hok1) as [Hok2 Hle2]. split; [exact Hok2 | lia].
Qed.




(** What a single exchange hands out: nothing, or the current value of
    the sequence, which then moves on. *)
Lemma effect_created_shape (db db' : Database) (x : exchange) :
  effect db x db' ->
  created_ids [x] = []
  \/ created_ids [x] = [todos_id_seq db]
     /\ todos_id_seq db' = todos_id_seq db + 1.
Proof.
  intros Heff.
  destruct Heff as [todo Hvalid | todo_id u old Hold Hvalid
                   | todo_id old m Hold | x' (Hc & _)].
  - right. split; reflexivity.
  - left. reflexivity.
  - left. reflexivity.
  - left. unfold created_ids. cbn. now rewrite Hc.
Qed.

(** The ids handed out along a sequence of requests are distinct and lie
    between the sequence before and the sequence after. *)
Lemma serve_all_created (scan : scan_order) (reqs : list request) (db : Database) :
  store_ok db ->
  let db' := fst (serve_all scan db reqs) in
  let log := snd (serve_all scan db reqs) in
  NoDup (created_ids log)
  /\ Forall (fun i => todos_id_seq db <= i < todos_id_seq db') (created_ids log).
Proof.
  revert db. induction reqs as [|req reqs IH]; intros db Hok; cbv zeta.
  - cbn. split; constructor.
  - rewrite serve_all_cons. cbn [fst snd].
    pose proof (handler_effect scan db req Hok) as Heff.
    destruct (effect_store_ok _ _ _ Hok Heff) as [Hok1 Hle].
    destruct (IH _ Hok1) as [Hnd Hall].
    destruct (serve_all_store_ok scan reqs _ Hok1) as [_ Hle2].
    rewrite created_ids_cons.
    destruct (effect_created_shape _ _ _ Heff) as [-> | [-> Hseq]]; cbn [app].
    + split; [exact Hnd|]. eapply Forall_impl; [|exact Hall]. cbn. lia.
    + rewrite Forall_forall in Hall. split.
      * constructor; [|exact Hnd]. intros Hin. specialize (Hall _ Hin).
        cbn in Hall. lia.
      * constructor; [lia|]. apply Forall_forall. intros i Hin.
        specialize (Hall _ Hin). cbn in Hall. lia.
Qed.

(** C3.  Along any sequence of requests that starts in a datastore
    satisfying the storage invariant, the invariant holds at the end: no id
    is handed out twice and none that the table held before is handed out
    again, whether or not its item was deleted in between; every stored
    text is non-empty and at most 500 characters; the sequence stays ahead
    of every stored id.  ([completed] is a boolean in every row: the type
    of the column has no null.) *)
Theorem storage_invariant_preserved (scan : scan_order) (db : Database) (reqs : list request) :
  store_ok db ->
  let db' := fst (serve_all scan db reqs) in
  let log := snd (serve_all scan db reqs) in
  store_ok db'
  /\ NoDup (ids (todos db) ++ created_ids log)
  /\ Forall (fun r => TodoDB.text r <> [] /\ len (TodoDB.text r) <= 500
                      /\ (TodoDB.completed r = true
                          \/ TodoDB.completed r = false))
            (todos db')
  /\ forall todo db'' item,
       call (create_todo todo) db' = (db'', inr item) ->
       ~ In (TodoDB.id item) (ids (todos db) ++ created_ids log).
Proof.
  intros Hok. cbv zeta.
  destruct (serve_all_store_ok scan reqs db Hok) as [Hok' Hle].
  destruct (serve_all_created scan reqs db Hok) as [Hnd Hall].
  rewrite Forall_forall in Hall.
  assert (Hold : forall i, In i (ids (todos db)) -> i < todos_id_seq db).
  { destruct Hok as (_ & _ & Hrows). rewrite Forall_forall in Hrows.
    intros i Hin. unfold ids in Hin. apply in_map_iff in Hin as (r & <- & Hr).
    specialize (Hrows r Hr). lia. }
  split; [exact Hok'|]. split; [|split].
  - apply NoDup_app; [now destruct Hok as (_ & ? & _) | exact Hnd |].
    intros i Hin Hin'. specialize (Hold i Hin). specialize (Hall i Hin').
    cbn in Hall. lia.
  - destruct Hok' as (_ & _ & Hrows). eapply Forall_impl; [|exact Hrows].
    cbn. intros r [_ [Hne Hlen]]. repeat split; [exact Hne | exact Hlen |].
    destruct (TodoDB.completed r); [now left | now right].
  - intros todo db'' item Hcall Hin.
    assert (Hid : TodoDB.id item = todos_id_seq (fst (serve_all scan db reqs))).
    { destruct (create_shape _ todo Hok') as [Hrej | Hacc].
      - rewrite Hcall in Hrej. destruct Hrej as (e & He). discriminate He.
      - rewrite Hcall in Hacc. injection Hacc as _ ->. reflexivity. }
    apply in_app_or in Hin as [Hin|Hin].
    + specialize (Hold _ Hin). lia.
    + specialize (Hall _ Hin). cbn in Hall. lia.
Qed.

Lemma storage_invariant_preserved_witness :
  let reqs := [CreateTodo buy_milk; DeleteTodo 1; CreateTodo buy_milk] in
  created_ids (snd (serve_all heap_order empty_database reqs)) = [1; 2]
  /\ ids (todos (fst (serve_all heap_order empty_database reqs))) = [2]
  /\ store_ok (fst (serve_all heap_order empty_database reqs))
  /\ NoDup (ids (todos empty_database)
            ++ created_ids (snd (serve_all heap_order empty_database reqs))).
Proof.
  cbv zeta. split; [reflexivity|]. split; [reflexivity|].
  destruct (storage_invariant_preserved
              heap_order empty_database
              [CreateTodo buy_milk; DeleteTodo 1; CreateTodo buy_milk]
              store_ok_empty) as (Hok & Hnd & _).
  split; [exact Hok | exact Hnd].
Defined.




(* ===================================================================== *)
(** * Retries: at request time and at startup *)
(* ===================================================================== *)

(** C8, as stated, fails: [get_db] runs for every request, and when its
    first probe of the datastore fails it sleeps and probes again, here a
    second time before the handler is reached. *)
Lemma get_db_retries_at_request_time :
  serve heap_order flaky GetTodos empty_database
  = ([Probe 0 false; Sleep (1 # 2); Probe 1 true; Handle GetTodos],
     (empty_database, inr (Todos [])))
  /\ probes (fst (serve heap_order flaky GetTodos empty_database)) = 2%nat.
Proof. split; reflexivity. Qed.

(** The request whose handler returns, by the outcome of the three
    probes. *)
Lemma serve_returning (scan : scan_order) (probe : oracle) (req : request)
      (db db' : Database) (v : response) :
  call (handler scan req) db = (db', inr v) ->
  serve scan probe req db
  = match probe 0%nat, probe 1%nat, probe 2%nat with
    | None, _, _ =>
        ([Probe 0 true; Handle req], (db', inr v))
    | Some _, None, _ =>
        ([Probe 0 false; Sleep (1 # 2); Probe 1 true; Handle req],
         (db', inr v))
    | Some _, Some _, None =>
        ([Probe 0 false; Sleep (1 # 2); Probe 1 false; Sleep (1 # 2);
          Probe 2 true; Handle req],
         (db', inr v))
    | Some _, Some _, Some _ =>
        ([Probe 0 false; Sleep (1 # 2); Probe 1 false; Sleep (1 # 2);
          Probe 2 false],
         (db, inl (HTTPException 503
                     "Database connection failed after multiple retries")))
    end.
Proof.
  intros H. unfold serve. rewrite H.
  destruct (probe 0%nat) as [e0|] eqn:E0,
           (probe 1%nat) as [e1|] eqn:E1,
           (probe 2%nat) as [e2|] eqn:E2;
    unfold get_db, range; cbn [seq get_db_for fst snd];
    rewrite ?E0, ?E1, ?E2; reflexivity.
Qed.

(** The request whose handler raises: the exception is thrown into
    [get_db] at its [yield] and caught there. *)
Lemma serve_raising (scan : scan_order) (probe : oracle) (req : request)
      (db db' : Database) (e : exn) :
  call (handler scan req) db = (db', inl e) ->
  serve scan probe req db
  = match probe 0%nat, probe 1%nat, probe 2%nat with
    | None, None, _ =>
        ([Probe 0 true; Handle req; Sleep (1 # 2); Probe 1 true],
         (db', inl (Exception "generator didn't stop after throw()")))
    | None, Some _, None =>
        ([Probe 0 true; Handle req; Sleep (1 # 2); Probe 1 false;
          Sleep (1 # 2); Probe 2 true],
         (db', inl (Exception "generator didn't stop after throw()")))
    | None, Some _, Some _ =>
        ([Probe 0 true; Handle req; Sleep (1 # 2); Probe 1 false;
          Sleep (1 # 2); Probe 2 false],
         (db', inl (HTTPException 503
                      "Database connection failed after multiple retries")))
    | Some _, None, None =>
        ([Probe 0 false; Sleep (1 # 2); Probe 1 true; Handle req;
          Sleep (1 # 2); Probe 2 true],
         (db', inl (Exception "generator didn't stop after throw()")))
    | Some _, None, Some _ =>
        ([Probe 0 false; Sleep (1 # 2); Probe 1 true; Handle req;
          Sleep (1 # 2); Probe 2 false],
         (db', inl (HTTPException 503
                      "Database connection failed after multiple retries")))
    | Some _, Some _, None =>
        ([Probe 0 false; Sleep (1 # 2); Probe 1 false; Sleep (1 # 2);
          Probe 2 true; Handle req],
         (db', inl (HTTPException 503
                      "Database connection failed after multiple retries")))
    | Some _, Some _, Some _ =>
        ([Probe 0 false; Sleep (1 # 2); Probe 1 false; Sleep (1 # 2);
          Probe 2 false],
         (db, inl (HTTPException 503
                     "Database connection failed after multiple retries")))
    end.
Proof.
  intros H. unfold serve. rewrite H.
  destruct (probe 0%nat) as [e0|] eqn:E0,
           (probe 1%nat) as [e1|] eqn:E1,
           (probe 2%nat) as [e2|] eqn:E2;
    unfold get_db, range; cbn [seq get_db_for fst snd];
    rewrite ?E0, ?E1, ?E2; reflexivity.
Qed.

(** C8, amended.  At request time [get_db] opens and probes a session up
    to three times in all, sleeping 0.5 before each further attempt, and
    answers 503 with the datastore untouched when no probe went through
    before the attempts ran out.  The handler runs at most once, after the
    first probe that goes through, and nothing it does is attempted again.
    When the handler returns, the request is answered with its value.

    The theorem also tells what the code does when the handler raises,
    which the amended claim leaves open: the [yield] stands inside the
    [try], so [get_db] catches the exception of the handler like a failed
    probe; unless that was its third attempt it sleeps 0.5 and probes once
    more, and the request ends in a server error (status 500 for the second
    [yield] when a new probe goes through, 503 otherwise), not in the
    exception of the handler. *)
Theorem request_time_attempts (scan : scan_order) (probe : oracle)
        (req : request) (db : Database) :
  (forall db' v,
     call (handler scan req) db = (db', inr v) ->
     serve scan probe req db
     = match probe 0%nat, probe 1%nat, probe 2%nat with
       | None, _, _ =>
           ([Probe 0 true; Handle req], (db', inr v))
       | Some _, None, _ =>
           ([Probe 0 false; Sleep (1 # 2); Probe 1 true; Handle req],
            (db', inr v))
       | Some _, Some _, None =>
           ([Probe 0 false; Sleep (1 # 2); Probe 1 false; Sleep (1 # 2);
             Probe 2 true; Handle req],
            (db', inr v))
       | Some _, Some _, Some _ =>
           ([Probe 0 false; Sleep (1 # 2); Probe 1 false; Sleep (1 # 2);
             Probe 2 false],
            (db, inl (HTTPException 503
                        "Database connection failed after multiple retries")))
       end)
  /\ (forall db' e,
        call (handler scan req) db = (db', inl e) ->
        serve scan probe req db
        = match probe 0%nat, probe 1%nat, probe 2%nat with
          | None, None, _ =>
              ([Probe 0 true; Handle req; Sleep (1 # 2); Probe 1 true],
               (db', inl (Exception "generator didn't stop after throw()")))
          | None, Some _, None =>
              ([Probe 0 true; Handle req; Sleep (1 # 2); Probe 1 false;
                Sleep (1 # 2); Probe 2 true],
               (db', inl (Exception "generator didn't stop after throw()")))
          | None, Some _, Some _ =>
              ([Probe 0 true; Handle req; Sleep (1 # 2); Probe 1 false;
                Sleep (1 # 2); Probe 2 false],
               (db', inl (HTTPException 503
                            "Database connection failed after multiple retries")))
          | Some _, None, None =>
              ([Probe 0 false; Sleep (1 # 2); Probe 1 true; Handle req;
                Sleep (1 # 2); Probe 2 true],
               (db', inl (Exception "generator didn't stop after throw()")))
          | Some _, None, Some _ =>
              ([Probe 0 false; Sleep (1 # 2); Probe 1 true; Handle req;
                Sleep (1 # 2); Probe 2 false],
               (db', inl (HTTPException 503
                            "Database connection failed after multiple retries")))
          | Some _, Some _, None =>
              ([Probe 0 false; Sleep (1 # 2); Probe 1 false; Sleep (1 # 2);
                Probe 2 true; Handle req],
               (db', inl (HTTPException 503
                            "Database connection failed after multiple retries")))
          | Some _, Some _, Some _ =>
              ([Probe 0 false; Sleep (1 # 2); Probe 1 false; Sleep (1 # 2);
                Probe 2 false],
               (db, inl (HTTPException 503
                           "Database connection failed after multiple retries")))
          end)
  /\ (forall db' e,
        call (handler scan req) db = (db', inl e) ->
        exists e', snd (snd (serve scan probe req db)) = inl e'
                   /\ (status e' = 500 \/ status e' = 503))
  /\ (1 <= probes (fst (serve scan probe req db)) <= 3)%nat
  /\ (handled (fst (serve scan probe req db)) <= 1)%nat.
Proof.
  split; [|split; [|split]].
  - intros db' v H. now apply serve_returning.
  - intros db' e H. exact (serve_raising scan probe req db db' e H).
  - intros db' e H. rewrite (serve_raising scan probe req db db' e H).
    destruct (probe 0%nat), (probe 1%nat), (probe 2%nat);
      eexists; (split; [reflexivity|]); cbn; auto.
  - destruct (call (handler scan req) db) as [db' [e|v]] eqn:H.
    + rewrite (serve_raising scan probe req db db' e H).
      destruct (probe 0%nat), (probe 1%nat), (probe 2%nat); cbn; lia.
    + rewrite (serve_returning scan probe req db db' v H).
      destruct (probe 0%nat), (probe 1%nat), (probe 2%nat); cbn; lia.
Qed.

Lemma request_time_attempts_witness :
  serve heap_order reachable (GetTodo 5) empty_database
  = ([Probe 0 true; Handle (GetTodo 5); Sleep (1 # 2); Probe 1 true],
     (empty_database, inl (Exception "generator didn't stop after throw()")))
  /\ serve heap_order flaky (CreateTodo buy_milk) empty_database
     = ([Probe 0 false; Sleep (1 # 2); Probe 1 true;
         Handle (CreateTodo buy_milk)],
        (mkDatabase [TodoDB.mk 1 (lit "Buy milk") false] 2,
         inr (Todo (TodoDB.mk 1 (lit "Buy milk") false)))).
Proof.
  destruct (request_time_attempts heap_order reachable (GetTodo 5)
              empty_database) as (_ & Hraise & _).
  destruct (request_time_attempts heap_order flaky (CreateTodo buy_milk)
              empty_database) as (Hret & _).
  split.
  - exact (Hraise empty_database not_found eq_refl).
  - exact (Hret _ _ eq_refl).
Defined.

(** C9.  [init_database()] makes at least one and at most ten attempts to
    connect.  It sleeps once between two attempts, and the sleep after the
    failed attempt number k (from 0) lasts min(2 * 1.5^k, 30): 2 at first,
    multiplied by 1.5 after each failure, capped at 30.  When all ten
    attempts fail it raises the exception of the last one; the module body
    re-raises it, so startup ends there and [create_tables()] is not
    reached.  When some attempt goes through it returns the engine. *)
Theorem init_database_backoff (connect create_all : oracle) :
  let tr := fst (init_database connect 10 2) in
  let r := snd (init_database connect 10 2) in
  (1 <= connects tr <= 10)%nat
  /\ List.length (sleeps tr) = (connects tr - 1)%nat
  /\ (forall k d, nth_error (sleeps tr) k = Some d -> d == backoff k)
  /\ ((forall k, (k < 10)%nat -> connect k <> None) ->
      exists e, connect 9%nat = Some e
                /\ r = inl (Exception e)
                /\ connects tr = 10%nat
                /\ startup connect create_all = (tr, inl (Exception e)))
  /\ ((exists k, (k < 10)%nat /\ connect k = None) -> r = inr tt).
Proof.
  cbv zeta. unfold startup.
  destruct (init_database connect 10 2) as [tr r] eqn:Hrun. cbn [fst snd].
  unfold init_database, range in Hrun. cbn [seq init_database_for] in Hrun.
  repeat match type of Hrun with
         | context [match connect ?k with _ => _ end] =>
             destruct (connect k) eqn:?
         end.
  all: vm_compute in Hrun; injection Hrun as <- <-.
  all: split; [cbn; lia|].
  all: split; [reflexivity|].
  all: split;
    [intros k d H;
     repeat (destruct k as [|k]; [injection H as <-; vm_compute; reflexivity|]);
     destruct k; discriminate H|].
  all: split.
  all: try (intros H; exfalso;
            match goal with
            | E : _ ?j = None |- _ => apply (H j); [lia | exact E]
            end).
  all: try (intros _; reflexivity).
  - intros _. eexists. repeat split; reflexivity.
  - intros (k & Hk & Hn).
    do 10 (destruct k as [|k]; [congruence|]). lia.
Qed.

Lemma init_database_backoff_witness :
  sleeps (fst (init_database refused 10 2))
  = [2; 3; 9 # 2; 27 # 4; 81 # 8; 243 # 16; 729 # 32; 30; 30]%Q
  /\ exists e,
       snd (init_database refused 10 2) = inl (Exception e)
       /\ startup refused reachable
          = (fst (init_database refused 10 2), inl (Exception e)).
Proof.
  split; [reflexivity|].
  destruct (init_database_backoff refused reachable)
    as (_ & _ & _ & Hfatal & _).
  destruct Hfatal as (e & _ & Hr & _ & Hs).
  - intros k _. discriminate.
  - exists e. split; [exact Hr | exact Hs].
Defined.

(* ===================================================================== *)
(** * Further properties of the handlers *)
(* ===================================================================== *)

Section StripTwice.

Lemma lstrip_head (s : str) :
  lstrip s = [] \/ exists c t, lstrip s = c :: t /\ isspace c = false.
Proof.
  induction s as [|c s IH]; cbn [lstrip]; [now left|].
  destruct (isspace c) eqn:E; [exact IH|].
  right. exists c, s. split; [reflexivity | exact E].
Qed.

Lemma lstrip_fixed (c : char) (t : str) :
  isspace c = false -> lstrip (c :: t) = c :: t.
Proof. intros E. cbn [lstrip]. now rewrite E. Qed.

Lemma lstrip_snoc (l : str) (c : char) :
  isspace c = false -> lstrip (l ++ [c]) = lstrip l ++ [c].
Proof.
  intros E. induction l as [|a l IH]; cbn [lstrip app].
  - now rewrite E.
  - destruct (isspace a); [exact IH | reflexivity].
Qed.

Lemma rstrip_cons (c : char) (t : str) :
  isspace c = false -> rstrip (c :: t) = c :: rstrip t.
Proof.
  intros E. unfold rstrip. cbn [rev].
  rewrite (lstrip_snoc _ _ E), rev_app_distr. reflexivity.
Qed.

Lemma rstrip_twice (t : str) : rstrip (rstrip t) = rstrip t.
Proof.
  unfold rstrip. rewrite rev_involutive.
  destruct (lstrip_head (rev t)) as [-> | (c & t' & -> & E)]; [reflexivity|].
  now rewrite (lstrip_fixed _ _ E).
Qed.

(** [s.strip().strip() == s.strip()] *)
Lemma strip_twice (s : str) : strip (strip s) = strip s.
Proof.
  unfold strip.
  destruct (lstrip_head s) as [-> | (c & t & -> & E)]; [reflexivity|].
  rewrite (rstrip_cons _ _ E), (lstrip_fixed _ _ E), <- (rstrip_cons _ _ E).
  apply rstrip_twice.
Qed.

End StripTwice.

Lemma find_patch_at (i : Z) (u : TodoUpdate.t) (l : list TodoDB.t) :
  find (has_id i) (map (patch_at i u) l)
  = option_map (patch u) (find (has_id i) l).
Proof.
  rewrite find_map_keep by (intros r; apply patch_at_id).
  destruct (find (has_id i) l) as [r|] eqn:E; [|reflexivity].
  apply find_has_id in E as [Hid _]. cbn. unfold patch_at.
  apply has_id_true in Hid. now rewrite Hid.
Qed.

Lemma find_patch_at_other (i j : Z) (u : TodoUpdate.t) (l : list TodoDB.t) :
  j <> i ->
  find (has_id j) (map (patch_at i u) l) = find (has_id j) l.
Proof.
  intros Hne. rewrite find_map_keep by (intros r; apply patch_at_id).
  destruct (find (has_id j) l) as [r|] eqn:E; [|reflexivity].
  apply find_has_id in E as [Hid _]. cbn. unfold patch_at.
  assert (has_id i r = false) as -> by (apply has_id_false; congruence).
  reflexivity.
Qed.

Lemma patch_twice (u : TodoUpdate.t) (r : TodoDB.t) :
  patch u (patch u r) = patch u r.
Proof.
  unfold patch. cbn [TodoDB.id TodoDB.text TodoDB.completed].
  destruct (TodoUpdate.text u), (TodoUpdate.completed u); reflexivity.
Qed.

Lemma patch_at_twice (i : Z) (u : TodoUpdate.t) (r : TodoDB.t) :
  patch_at i u (patch_at i u r) = patch_at i u r.
Proof.
  unfold patch_at. destruct (has_id i r) eqn:E.
  - unfold has_id in *. rewrite patch_id, E. apply patch_twice.
  - now rewrite E.
Qed.

(** What a successful update tells about the datastore before and after. *)
Lemma update_success_inv (db db' : Database) (todo_id : Z)
      (u : TodoUpdate.t) (item : TodoDB.t) :
  call (update_todo todo_id u) db = (db', inr item) ->
  exists old,
    find (has_id todo_id) (todos db) = Some old
    /\ db' = mkDatabase
               (flushed (todos db) (map (patch_at todo_id u) (todos db)))
               (todos_id_seq db)
    /\ find (has_id todo_id) (todos db') = Some item
    /\ forall t, TodoUpdate.text u = Some t -> valid_text (strip t).
Proof.
  rewrite call_update_todo.
  destruct (find (has_id todo_id) (todos db)) as [old|] eqn:E; [|discriminate].
  cbv zeta.
  assert (Hdone :
            (if update_refused (todos db) (map (patch_at todo_id u) (todos db))
             then (db, inl (HTTPException 500
                              ("Failed to update todo: " ++ nul_refused)))
             else (mkDatabase
                     (flushed (todos db) (map (patch_at todo_id u) (todos db)))
                     (todos_id_seq db),
                   match find (has_id todo_id)
                           (flushed (todos db)
                              (map (patch_at todo_id u) (todos db))) with
                   | Some r => inr r
                   | None => inl (HTTPException 500
                              "Failed to update todo: Could not refresh instance")
                   end)) = (db', inr item) ->
            db' = mkDatabase
                    (flushed (todos db) (map (patch_at todo_id u) (todos db)))
                    (todos_id_seq db)
            /\ find (has_id todo_id) (todos db') = Some item).
  { destruct (update_refused _ _); [discriminate|].
    destruct (find (has_id todo_id) (flushed _ _)) as [r|] eqn:F; [|discriminate].
    intros H. injection H as <- <-. split; [reflexivity | exact F]. }
  destruct (TodoUpdate.text u) as [t|] eqn:Eu.
  - destruct (negb (truthy (strip t))) eqn:Et; [discriminate|].
    destruct (len (strip t) >? 500) eqn:El; [discriminate|].
    intros H. destruct (Hdone H) as [Hdb Hitem].
    exists old. split; [reflexivity|]. split; [exact Hdb|].
    split; [exact Hitem|]. intros t' Ht'. injection Ht' as <-. split.
    + apply negb_false_iff in Et.
      destruct (strip t); [discriminate Et | discriminate].
    + rewrite Z.gtb_ltb in El. apply Z.ltb_ge in El. exact El.
  - intros H. destruct (Hdone H) as [Hdb Hitem].
    exists old. split; [reflexivity|]. split; [exact Hdb|].
    split; [exact Hitem|]. intros t' Ht'. discriminate Ht'.
Qed.





(** X3.  With distinct ids in the table, reading an id answers with an item
    exactly when that item is in the table under that id, answers 404
    exactly when no row has the id, and never changes the datastore. *)
Theorem get_todo_lookup (db : Database) (todo_id : Z) :
  NoDup (ids (todos db)) ->
  (forall r, call (get_todo todo_id) db = (db, inr r)
             <-> In r (todos db) /\ TodoDB.id r = todo_id)
  /\ (call (get_todo todo_id) db = (db, inl (HTTPException 404 "Todo not found"))
      <-> ~ In todo_id (ids (todos db)))
  /\ fst (call (get_todo todo_id) db) = db.
Proof.
  intros Hnd. rewrite call_get_todo. cbn [fst]. split; [|split; [|reflexivity]].
  - intros r. split.
    + destruct (find (has_id todo_id) (todos db)) as [r'|] eqn:E; [|discriminate].
      intros H. injection H as <-. apply find_has_id in E as [Hid Hin].
      split; assumption.
    + intros [Hin <-]. now rewrite (find_in_nodup _ Hnd _ Hin).
  - split.
    + destruct (find (has_id todo_id) (todos db)) eqn:E; [discriminate|].
      intros _. now apply find_none_absent.
    + intros Habs. now rewrite (find_absent _ _ Habs).
Qed.

Lemma get_todo_lookup_witness :
  let db := mkDatabase [TodoDB.mk 1 (lit "Buy milk") false;
                        TodoDB.mk 2 (lit "Walk") true] 3 in
  call (get_todo 2) db = (db, inr (TodoDB.mk 2 (lit "Walk") true))
  /\ call (get_todo 5) db = (db, inl (HTTPException 404 "Todo not found")).
Proof.
  cbv zeta.
  assert (Hnd : NoDup (ids (todos (mkDatabase
                   [TodoDB.mk 1 (lit "Buy milk") false;
                    TodoDB.mk 2 (lit "Walk") true] 3)))).
  { cbn. repeat constructor; cbn; intuition discriminate. }
  split.
  - apply (get_todo_lookup _ 2 Hnd). split; [right; left|]; reflexivity.
  - apply (get_todo_lookup _ 5 Hnd). cbn. intuition discriminate.
Defined.

(** X4.  Update, then read: after an update has succeeded, reading the same
    id answers with the very item the update answered with. *)
Theorem update_then_get (db db' : Database) (todo_id : Z)
        (u : TodoUpdate.t) (item : TodoDB.t) :
  call (update_todo todo_id u) db = (db', inr item) ->
  call (get_todo todo_id) db' = (db', inr item).
Proof.
  intros H. apply update_success_inv in H as (old & _ & _ & Hitem & _).
  rewrite call_get_todo, Hitem. reflexivity.
Qed.

Lemma update_then_get_witness :
  let db := mkDatabase [TodoDB.mk 1 (lit "Buy milk") false] 2 in
  let db' := mkDatabase [TodoDB.mk 1 (lit "Buy bread") false] 2 in
  call (get_todo 1) db' = (db', inr (TodoDB.mk 1 (lit "Buy bread") false)).
Proof.
  cbv zeta.
  apply (update_then_get
           (mkDatabase [TodoDB.mk 1 (lit "Buy milk") false] 2) _ 1
           (TodoUpdate.mk (Some (lit " Buy bread ")) None)).
  reflexivity.
Defined.

(** X5.  An update of a stored id whose text is blank once trimmed, or
    longer than 500 characters once trimmed, is refused with status 400 and
    nothing is applied: a [completed] sent along with the bad text is not
    stored either. *)
Theorem update_invalid_text_rejected
        (db : Database) (todo_id : Z) (t : str) (c : option bool) :
  In todo_id (ids (todos db)) ->
  (strip t = [] ->
   call (update_todo todo_id (TodoUpdate.mk (Some t) c)) db
   = (db, inl (HTTPException 400 "Todo text cannot be empty")))
  /\ (500 < len (strip t) ->
      call (update_todo todo_id (TodoUpdate.mk (Some t) c)) db
      = (db, inl (HTTPException 400 "Todo text cannot exceed 500 characters"))).
Proof.
  intros Hin. rewrite call_update_todo.
  destruct (find (has_id todo_id) (todos db)) as [old|] eqn:E.
  2:{ exfalso. exact (find_none_absent _ _ E Hin). }
  cbv zeta. cbn [TodoUpdate.text]. split.
  - intros ->. reflexivity.
  - intros Hlong. rewrite (truthy_len (strip t)) by lia. cbn [negb].
    destruct (len (strip t) >? 500) eqn:El; [reflexivity|].
    rewrite Z.gtb_ltb in El. apply Z.ltb_ge in El. lia.
Qed.

Lemma update_invalid_text_rejected_witness :
  let db := mkDatabase [TodoDB.mk 1 (lit "Buy milk") false] 2 in
  call (update_todo 1 (TodoUpdate.mk (Some (lit "   ")) (Some true))) db
  = (db, inl (HTTPException 400 "Todo text cannot be empty")).
Proof.
  cbv zeta.
  apply (update_invalid_text_rejected
           (mkDatabase [TodoDB.mk 1 (lit "Buy milk") false] 2) 1
           (lit "   ") (Some true)).
  - left. reflexivity.
  - reflexivity.
Defined.

(** X6.  An update is idempotent: sending the body of a successful update
    again answers with the same item and leaves the datastore as the first
    update left it. *)
Theorem update_twice (db db' : Database) (todo_id : Z)
        (u : TodoUpdate.t) (item : TodoDB.t) :
  call (update_todo todo_id u) db = (db', inr item) ->
  call (update_todo todo_id u) db' = (db', inr item).
Proof.
  intros H. apply update_success_inv in H as (old & Hold & -> & Hitem & Hvalid).
  cbn [todos] in Hitem.
  set (F := flushed (todos db) (map (patch_at todo_id u) (todos db))) in *.
  assert (Hview : map (patch_at todo_id u) F = F).
  { rewrite <- (map_id F) at 2. apply map_ext_in. intros r Hr.
    apply flushed_In, in_map_iff in Hr as (r0 & <- & _).
    apply patch_at_twice. }
  rewrite call_update_todo. cbn [todos todos_id_seq]. rewrite Hitem. cbv zeta.
  rewrite Hview, (flushed_sub F F (fun r H => H)),
    (update_refused_sub F F (fun r H => H)), Hitem.
  destruct (TodoUpdate.text u) as [t|] eqn:Eu; [|reflexivity].
  destruct (Hvalid t eq_refl) as [Hne Hlen].
  rewrite (truthy_true _ Hne). cbn [negb].
  destruct (len (strip t) >? 500) eqn:El; [apply Z.gtb_lt in El; lia|].
  reflexivity.
Qed.

Lemma update_twice_witness :
  let db' := mkDatabase [TodoDB.mk 1 (lit "Buy bread") true] 2 in
  call (update_todo 1 (TodoUpdate.mk (Some (lit " Buy bread ")) (Some true))) db'
  = (db', inr (TodoDB.mk 1 (lit "Buy bread") true)).
Proof.
  cbv zeta.
  apply (update_twice (mkDatabase [TodoDB.mk 1 (lit "Buy milk") false] 2)).
  reflexivity.
Defined.

(** X7.  An update with an empty body (neither text nor completed) of a
    stored id succeeds, answers with the stored item and changes nothing. *)
Theorem update_empty_body (db : Database) (todo_id : Z) (old : TodoDB.t) :
  find (has_id todo_id) (todos db) = Some old ->
  call (update_todo todo_id (TodoUpdate.mk None None)) db = (db, inr old).
Proof.
  intros Hold. rewrite call_update_todo, Hold. cbv zeta.
  cbn [TodoUpdate.text].
  rewrite (assignments_patch todo_id (TodoUpdate.mk None None)).
  cbn [TodoUpdate.text TodoUpdate.completed].
  rewrite (flushed_sub _ _ (fun r H => H)),
    (update_refused_sub _ _ (fun r H => H)), Hold.
  destruct db; reflexivity.
Qed.

Lemma update_empty_body_witness :
  let db := mkDatabase [TodoDB.mk 1 (lit "Buy milk") false] 2 in
  call (update_todo 1 (TodoUpdate.mk None None)) db
  = (db, inr (TodoDB.mk 1 (lit "Buy milk") false)).
Proof.
  cbv zeta.
  apply (update_empty_body
           (mkDatabase [TodoDB.mk 1 (lit "Buy milk") false] 2) 1).
  reflexivity.
Defined.

(** X8.  With distinct ids in the table, deleting a stored id succeeds and
    removes exactly that row: one row less, the sequence untouched, the
    other rows left in their order, and every other id reads as before. *)
Theorem delete_removes_one (db : Database) (todo_id : Z) :
  NoDup (ids (todos db)) ->
  In todo_id (ids (todos db)) ->
  exists db',
    call (delete_todo todo_id) db = (db', inr "Todo deleted successfully"%string)
    /\ todos_id_seq db' = todos_id_seq db
    /\ S (List.length (todos db')) = List.length (todos db)
    /\ todos db' = filter (fun r => negb (TodoDB.id r =? todo_id)) (todos db)
    /\ forall j, j <> todo_id ->
         call (get_todo j) db' = (db', snd (call (get_todo j) db)).
Proof.
  intros Hnd Hin.
  destruct (find (has_id todo_id) (todos db)) as [old|] eqn:E.
  2:{ exfalso. exact (find_none_absent _ _ E Hin). }
  eexists. rewrite call_delete_todo, E.
  split; [reflexivity|]. cbn [todos todos_id_seq].
  split; [reflexivity|]. split; [|split; [reflexivity|]].
  - pose proof (f_equal (@List.length Z) (ids_remove todo_id (todos db))) as Hlen.
    unfold ids in Hlen at 1. rewrite length_map in Hlen. rewrite Hlen.
    replace (List.length (todos db)) with (List.length (ids (todos db)))
      by (unfold ids; apply length_map).
    clear E Hlen. induction (ids (todos db)) as [|a l IH]; [destruct Hin|].
    apply NoDup_cons_iff in Hnd as [Hnot Hnd]. cbn [filter].
    destruct (Z.eqb_spec a todo_id) as [->|Hne]; cbn [negb List.length].
    + f_equal. f_equal. apply forallb_filter_id, forallb_forall.
      intros i Hi. apply negb_true_iff, Z.eqb_neq. intros ->. exact (Hnot Hi).
    + f_equal. apply IH; [exact Hnd|]. destruct Hin as [->|Hin]; [tauto|exact Hin].
  - intros j Hne. rewrite !call_get_todo. cbn [todos snd].
    rewrite find_remove.
    destruct (Z.eqb_spec j todo_id); [contradiction | reflexivity].
Qed.

Lemma delete_removes_one_witness :
  let db := mkDatabase [TodoDB.mk 1 (lit "Buy milk") false;
                        TodoDB.mk 2 (lit "Walk") true] 3 in
  exists db',
    call (delete_todo 1) db = (db', inr "Todo deleted successfully"%string)
    /\ todos db' = [TodoDB.mk 2 (lit "Walk") true]
    /\ call (get_todo 2) db' = (db', inr (TodoDB.mk 2 (lit "Walk") true)).
Proof.
  cbv zeta.
  destruct (delete_removes_one
              (mkDatabase [TodoDB.mk 1 (lit "Buy milk") false;
                           TodoDB.mk 2 (lit "Walk") true] 3) 1)
    as (db' & Hcall & _ & _ & Hrows & Hget).
  - cbn. repeat constructor; cbn; intuition discriminate.
  - left. reflexivity.
  - exists db'. split; [exact Hcall|]. split; [rewrite Hrows; reflexivity|].
    rewrite (Hget 2); [reflexivity | discriminate].
Defined.



(** One step keeps every stored text trimmed. *)
Lemma effect_trimmed (db db' : Database) (x : exchange) :
  effect db x db' ->
  Forall (fun r => trimmed (TodoDB.text r)) (todos db) ->
  Forall (fun r => trimmed (TodoDB.text r)) (todos db').
Proof.
  intros Heff Hall.
  destruct Heff as [todo Hvalid | todo_id u old Hold Hvalid
                   | todo_id old m Hold | x' Hquiet].
  - cbn [todos]. apply Forall_app. split; [exact Hall|].
    constructor; [|constructor]. cbn. apply strip_twice.
  - cbn [todos]. unfold rewritten.
    destruct (stored (todos db) (patch u old)); [exact Hall|].
    rewrite Forall_forall in Hall.
    apply Forall_app. split.
    + apply Forall_forall. intros r Hr. apply filter_In in Hr as [Hr _].
      exact (Hall r Hr).
    + constructor; [|constructor]. unfold patch. cbn [TodoDB.text].
      destruct (TodoUpdate.text u); [apply strip_twice|].
      apply Hall. now apply find_has_id in Hold.
  - cbn [todos]. apply Forall_forall. intros r Hr.
    apply filter_In in Hr as [Hr _]. rewrite Forall_forall in Hall.
    exact (Hall r Hr).
  - exact Hall.
Qed.

(** X10.  Whatever requests were served since the table was created, no
    stored text starts or ends with whitespace: trimming it again gives it
    back. *)
Theorem stored_texts_trimmed (scan : scan_order) (reqs : list request) :
  Forall (fun r => strip (TodoDB.text r) = TodoDB.text r)
         (todos (fst (serve_all scan empty_database reqs))).
Proof.
  assert (H : forall db, store_ok db ->
                Forall (fun r => trimmed (TodoDB.text r)) (todos db) ->
                Forall (fun r => trimmed (TodoDB.text r))
                       (todos (fst (serve_all scan db reqs)))).
  { induction reqs as [|req reqs IH]; intros db Hok Hall; [exact Hall|].
    rewrite serve_all_cons. cbn [fst].
    pose proof (handler_effect scan db req Hok) as Heff.
    apply IH.
    - exact (proj1 (effect_store_ok _ _ _ Hok Heff)).
    - exact (effect_trimmed _ _ _ Heff Hall). }
  apply (H empty_database store_ok_empty). constructor.
Qed.

(** The sequence counts the successful creates. *)
Lemma serve_all_sequence (scan : scan_order) (reqs : list request)
      (db : Database) :
  store_ok db ->
  let db' := fst (serve_all scan db reqs) in
  let log := snd (serve_all scan db reqs) in
  todos_id_seq db' = todos_id_seq db + Z.of_nat (creates log)
  /\ created_ids log
     = map (fun k => todos_id_seq db + Z.of_nat k) (seq 0 (creates log)).
Proof.
  revert db. induction reqs as [|req reqs IH]; intros db Hok; cbv zeta.
  - cbn. split; [lia | reflexivity].
  - rewrite serve_all_cons. cbn [fst snd].
    pose proof (handler_effect scan db req Hok) as Heff.
    destruct (effect_store_ok _ _ _ Hok Heff) as [Hok1 _].
    destruct (IH _ Hok1) as [Hseq Hids].
    rewrite created_ids_cons, creates_cons, Hseq, Hids.
    match goal with
    | |- context [created_ids [?y]] => set (x := y) in *
    end.
    set (db1 := fst (call (handler scan req) db)) in *.
    set (log1 := @cons exchange x nil) in *.
    assert (Hone : created_ids log1 = [] /\ creates log1 = 0%nat
                   /\ todos_id_seq db1 = todos_id_seq db
                   \/ created_ids log1 = [todos_id_seq db]
                      /\ creates log1 = 1%nat
                      /\ todos_id_seq db1 = todos_id_seq db + 1).
    { subst log1. clearbody x db1.
      destruct Heff as [todo Hvalid | todo_id u old Hold Hvalid
                       | todo_id old m Hold | x' (Hc & _)].
      - right. repeat split.
      - left. repeat split.
      - left. repeat split.
      - left. unfold created_ids, creates. cbn. rewrite Hc. repeat split. }
    destruct Hone as [(H1 & H2 & H3) | (H1 & H2 & H3)];
      rewrite H1, H2, H3; cbn [app Nat.add].
    + split; [lia | reflexivity].
    + split; [lia|]. cbn [seq map]. f_equal; [f_equal; lia|].
      rewrite <- seq_shift, map_map. apply map_ext. intros k. lia.
Qed.

(** X11.  Since the table was created, the successful creates have been
    given the ids 1, 2, 3, ... in the order in which they were served:
    requests that are refused, reads, updates and deletes use up no id. *)
Theorem created_ids_consecutive (scan : scan_order) (reqs : list request) :
  let log := snd (serve_all scan empty_database reqs) in
  created_ids log = map Z.of_nat (seq 1 (creates log))
  /\ todos_id_seq (fst (serve_all scan empty_database reqs))
     = 1 + Z.of_nat (creates log).
Proof.
  cbv zeta.
  destruct (serve_all_sequence scan reqs empty_database store_ok_empty)
    as [Hseq Hids].
  cbn [empty_database todos_id_seq] in Hseq, Hids.
  split; [|exact Hseq].
  rewrite Hids, <- seq_shift, map_map. apply map_ext. intros k. lia.
Qed.

(* ===================================================================== *)
(** * Further properties of the retry loops *)
(* ===================================================================== *)

(** The next delay of [init_database] is not negative when this one is
    not. *)
Lemma next_delay_nonneg (delay : Q) :
  (0 <= delay)%Q -> (0 <= py_min (fmul delay (3 # 2)) 30)%Q.
Proof.
  intros H. unfold py_min, fmul.
  pose proof (Qred_correct (delay * (3 # 2))) as Hred.
  destruct (Qle_bool (Qred (delay * (3 # 2))) 30); lra.
Qed.

Section Loops.

Variable attempt_at : oracle.

(** Among the attempts [a .. a+n-1] one goes through, or none does. *)
Lemma some_or_none (a n : nat) :
  (exists k, (a <= k < a + n)%nat /\ attempt_at k = None)
  \/ (forall k, (a <= k < a + n)%nat -> attempt_at k <> None).
Proof.
  induction n as [|n IH].
  - right. intros k Hk. lia.
  - destruct IH as [(k & Hk & Hnone) | Hall].
    + left. exists k. split; [lia | exact Hnone].
    + destruct (attempt_at (a + n)%nat) as [e|] eqn:E.
      * right. intros k Hk. destruct (Nat.eq_dec k (a + n)) as [->|Hne].
        -- rewrite E. discriminate.
        -- apply Hall. lia.
      * left. exists (a + n)%nat. split; [lia | exact E].
Qed.

(** The loop of [init_database] over the attempts [a .. a+n-1] of
    [max_retries = a + n]. *)
Lemma init_database_for_spec (n : nat) :
  forall (a : nat) (delay : Q),
    (0 <= delay)%Q ->
    let tr := fst (init_database_for attempt_at (a + n) (seq a n) delay) in
    let r := snd (init_database_for attempt_at (a + n) (seq a n) delay) in
    (connects tr <= n)%nat
    /\ create_alls tr = 0%nat /\ probes tr = 0%nat
    /\ ((exists k, (a <= k < a + n)%nat /\ attempt_at k = None) -> r = inr tt)
    /\ ((0 < n)%nat ->
        S (List.length (sleeps tr)) = connects tr
        /\ ((forall k, (a <= k < a + n)%nat -> attempt_at k <> None) ->
            exists e, attempt_at (a + n - 1)%nat = Some e
                      /\ r = inl (Exception e) /\ connects tr = n)).
Proof.
  induction n as [|n IH]; intros a delay Hdelay; cbv zeta.
  - cbn. repeat split; try lia. intros (k & Hk & _). lia.
  - cbn [seq init_database_for].
    destruct (attempt_at a) as [e|] eqn:E.
    2:{ cbn. repeat split; try lia.
        intros Hall. exfalso. apply (Hall a); [lia | exact E]. }
    destruct (Z.of_nat a <? Z.of_nat (a + S n) - 1) eqn:Hlt.
    + apply Z.ltb_lt in Hlt. assert (Hn : (0 < n)%nat) by lia.
      rewrite (proj2 (Qle_bool_iff 0 delay) Hdelay).
      specialize (IH (S a) (py_min (fmul delay (3 # 2)) 30)
                     (next_delay_nonneg delay Hdelay)).
      cbv zeta in IH. replace (S a + n)%nat with (a + S n)%nat in IH by lia.
      destruct (init_database_for attempt_at (a + S n) (seq (S a) n)
                  (py_min (fmul delay (3 # 2)) 30)) as [tr r].
      cbn [fst snd] in *.
      destruct IH as (Hc & Hca & Hp & Hsome & Hrest).
      destruct (Hrest Hn) as [Hsl Hfail].
      unfold connects, create_alls, probes, sleeps in *. cbn.
      split; [lia|]. split; [exact Hca|]. split; [exact Hp|]. split.
      * intros (k & Hk & Hnone). apply Hsome. exists k. split; [|exact Hnone].
        destruct (Nat.eq_dec k a) as [->|]; [congruence | lia].
      * intros _. split; [lia|]. intros Hall.
        destruct Hfail as (e' & He' & Hr & Hcn).
        { intros k Hk. apply Hall. lia. }
        exists e'. split; [exact He'|]. split; [exact Hr | lia].
    + apply Z.ltb_ge in Hlt. assert (n = 0)%nat as -> by lia.
      cbn. split; [lia|]. split; [reflexivity|]. split; [reflexivity|]. split.
      * intros (k & Hk & Hnone). assert (k = a) as -> by lia. congruence.
      * intros _. split; [reflexivity|]. intros _. exists e.
        replace (a + 1 - 1)%nat with a by lia. repeat split. exact E.
Qed.

(** The loop of [create_tables], likewise. *)
Lemma create_tables_for_spec (n : nat) :
  forall (a : nat),
    let tr := fst (create_tables_for attempt_at (a + n) (seq a n)) in
    let r := snd (create_tables_for attempt_at (a + n) (seq a n)) in
    (create_alls tr <= n)%nat
    /\ connects tr = 0%nat /\ probes tr = 0%nat
    /\ Forall (fun d => d = 2%Q) (sleeps tr)
    /\ ((exists k, (a <= k < a + n)%nat /\ attempt_at k = None) -> r = inr tt)
    /\ ((0 < n)%nat ->
        S (List.length (sleeps tr)) = create_alls tr
        /\ ((forall k, (a <= k < a + n)%nat -> attempt_at k <> None) ->
            exists e, attempt_at (a + n - 1)%nat = Some e
                      /\ r = inl (Exception e) /\ create_alls tr = n)).
Proof.
  induction n as [|n IH]; intros a; cbv zeta.
  - cbn. repeat split; try lia; try constructor.
  - cbn [seq create_tables_for].
    destruct (attempt_at a) as [e|] eqn:E.
    2:{ cbn. repeat split; try lia; try constructor.
        intros Hall. exfalso. apply (Hall a); [lia | exact E]. }
    destruct (Z.of_nat a <? Z.of_nat (a + S n) - 1) eqn:Hlt.
    + apply Z.ltb_lt in Hlt. assert (Hn : (0 < n)%nat) by lia.
      specialize (IH (S a)).
      cbv zeta in IH. replace (S a + n)%nat with (a + S n)%nat in IH by lia.
      destruct (create_tables_for attempt_at (a + S n) (seq (S a) n)) as [tr r].
      cbn [fst snd] in *.
      destruct IH as (Hc & Hca & Hp & Htwo & Hsome & Hrest).
      destruct (Hrest Hn) as [Hsl Hfail].
      unfold connects, create_alls, probes, sleeps in *. cbn.
      split; [lia|]. split; [exact Hca|]. split; [exact Hp|].
      split; [constructor; [reflexivity | exact Htwo]|]. split.
      * intros (k & Hk & Hnone). apply Hsome. exists k. split; [|exact Hnone].
        destruct (Nat.eq_dec k a) as [->|]; [congruence | lia].
      * intros _. split; [lia|]. intros Hall.
        destruct Hfail as (e' & He' & Hr & Hcn).
        { intros k Hk. apply Hall. lia. }
        exists e'. split; [exact He'|]. split; [exact Hr | lia].
    + apply Z.ltb_ge in Hlt. assert (n = 0)%nat as -> by lia.
      cbn. split; [lia|]. split; [reflexivity|]. split; [reflexivity|].
      split; [constructor|]. split.
      * intros (k & Hk & Hnone). assert (k = a) as -> by lia. congruence.
      * intros _. split; [reflexivity|]. intros _. exists e.
        replace (a + 1 - 1)%nat with a by lia. repeat split. exact E.
Qed.

End Loops.



Section Backoff.

Lemma power_ge_1 (k : nat) : (1 <= (3 # 2) ^ Z.of_nat k)%Q.
Proof.
  induction k as [|k IH]; [cbn; lra|].
  rewrite Nat2Z.inj_succ, <- Z.add_1_r, Qpower_plus by (intros H; discriminate H).
  change ((3 # 2) ^ 1)%Q with (3 # 2)%Q. lra.
Qed.

Lemma backoff_bounds (k : nat) : (2 <= backoff k <= 30)%Q.
Proof.
  unfold backoff. pose proof (power_ge_1 k) as Hp.
  destruct (Q.min_spec (2 * (3 # 2) ^ Z.of_nat k) 30) as [[Hlt ->] | [Hle ->]];
    lra.
Qed.

(** From one delay to the next. *)
Lemma backoff_step (k : nat) (d : Q) :
  (d == backoff k)%Q ->
  (py_min (fmul d (3 # 2)) 30 == backoff (S k))%Q.
Proof.
  intros Hd. unfold backoff in *.
  pose proof (power_ge_1 k) as Hp.
  assert (Hs : ((3 # 2) ^ Z.of_nat (S k) == (3 # 2) ^ Z.of_nat k * (3 # 2))%Q).
  { rewrite Nat2Z.inj_succ, <- Z.add_1_r, Qpower_plus by (intros H; discriminate H).
    reflexivity. }
  set (p := ((3 # 2) ^ Z.of_nat k)%Q) in *.
  set (p' := ((3 # 2) ^ Z.of_nat (S k))%Q) in *.
  unfold py_min, fmul.
  pose proof (Qred_correct (d * (3 # 2))) as Hred.
  set (m := Qred (d * (3 # 2))) in *.
  destruct (Q.min_spec (2 * p) 30) as [[H1 E1] | [H1 E1]];
    rewrite E1 in Hd;
    destruct (Q.min_spec (2 * p') 30) as [[H2 E2] | [H2 E2]];
    rewrite E2;
    destruct (Qle_bool m 30) eqn:Hb;
    try (apply Qle_bool_iff in Hb);
    try (assert (Hb' : ~ (m <= 30)%Q)
          by (intros Hle; apply Qle_bool_iff in Hle; congruence));
    lra.
Qed.

Lemma init_sleeps_backoff (connect : oracle) (m : nat) (attempts : list nat) :
  forall (delay : Q) (k0 : nat),
    (delay == backoff k0)%Q ->
    forall k d,
      nth_error (sleeps (fst (init_database_for connect m attempts delay))) k
      = Some d ->
      (d == backoff (k0 + k))%Q.
Proof.
  induction attempts as [|a rest IH]; intros delay k0 Hd k d;
    cbn [init_database_for].
  - destruct k; discriminate.
  - destruct (connect a) as [e|]; [|destruct k; discriminate].
    destruct (Z.of_nat a <? Z.of_nat m - 1); [|destruct k; discriminate].
    destruct (Qle_bool 0 delay); [|destruct k; discriminate].
    specialize (IH (py_min (fmul delay (3 # 2)) 30) (S k0) (backoff_step _ _ Hd)).
    destruct (init_database_for connect m rest (py_min (fmul delay (3 # 2)) 30))
      as [tr r].
    cbn [fst] in *. unfold sleeps in *. cbn [flat_map app].
    destruct k as [|k]; cbn [nth_error].
    + intros H. injection H as <-. now rewrite Nat.add_0_r.
    + intros H. specialize (IH k d H).
      now replace (k0 + S k)%nat with (S k0 + k)%nat by lia.
Qed.

End Backoff.

(** X13.  With the first delay of 2 and any [max_retries], the sleep after
    the failed attempt number k lasts min(2 * 1.5^k, 30): no sleep of
    [init_database] is shorter than 2 or longer than 30. *)
Theorem init_database_sleeps (connect : oracle) (max_retries k : nat) (d : Q) :
  nth_error (sleeps (fst (init_database connect max_retries 2))) k = Some d ->
  (d == backoff k)%Q /\ (2 <= d <= 30)%Q.
Proof.
  intros H.
  assert (H0 : (2 == backoff 0)%Q) by reflexivity.
  pose proof (init_sleeps_backoff connect max_retries (range max_retries)
                2 0%nat H0 k d H) as Hd.
  cbn [Nat.add] in Hd. split; [exact Hd|].
  pose proof (backoff_bounds k). lra.
Qed.

Lemma init_database_sleeps_witness :
  (729 # 32 == backoff 6)%Q /\ (2 <= 729 # 32 <= 30)%Q.
Proof.
  apply (init_database_sleeps refused 20 6 (729 # 32)). reflexivity.
Defined.

(** X14.  With its default arguments, [init_database()] never sleeps more
    than 124.34375 seconds in all, and it sleeps exactly that long when the
    first nine attempts fail, whatever the tenth does. *)
Theorem init_database_total_sleep (connect : oracle) :
  (slept (fst (init_database connect 10 2)) <= 3979 # 32)%Q
  /\ ((forall k, (k < 9)%nat -> connect k <> None) ->
      (slept (fst (init_database connect 10 2)) == 3979 # 32)%Q).
Proof.
  destruct (init_database connect 10 2) as [tr r] eqn:Hrun. cbn [fst].
  unfold init_database, range in Hrun. cbn [seq init_database_for] in Hrun.
  repeat match type of Hrun with
         | context [match connect ?k with _ => _ end] =>
             destruct (connect k) eqn:?
         end.
  all: vm_compute in Hrun; injection Hrun as <- <-.
  all: split; [vm_compute; discriminate|].
  all: try (intros _; vm_compute; reflexivity).
  all: intros H; exfalso;
    match goal with
    | E : _ ?j = None |- _ => apply (H j); [lia | exact E]
    end.
Qed.

Lemma init_database_total_sleep_witness :
  (slept (fst (init_database refused 10 2)) == 3979 # 32)%Q.
Proof.
  apply (init_database_total_sleep refused). intros k _. discriminate.
Defined.

(** X15.  [create_tables] with any [max_retries]: it never makes more than
    [max_retries] attempts and every sleep lasts 2; with [max_retries = 0]
    it returns at once without creating anything and without an error;
    otherwise it returns exactly when one of the attempts goes through,
    sleeps once between two attempts, and raises the exception of the last
    attempt when all fail. *)
Theorem create_tables_outcome (create_all : oracle) (max_retries : nat) :
  let tr := fst (create_tables create_all max_retries) in
  let r := snd (create_tables create_all max_retries) in
  (create_alls tr <= max_retries)%nat
  /\ Forall (fun d => d = 2%Q) (sleeps tr)
  /\ (max_retries = 0%nat -> tr = [] /\ r = inr tt)
  /\ ((0 < max_retries)%nat ->
      (r = inr tt <-> exists k, (k < max_retries)%nat /\ create_all k = None)
      /\ S (List.length (sleeps tr)) = create_alls tr
      /\ ((forall k, (k < max_retries)%nat -> create_all k <> None) ->
          exists e, create_all (max_retries - 1)%nat = Some e
                    /\ r = inl (Exception e)
                    /\ create_alls tr = max_retries)).
Proof.
  cbv zeta. unfold create_tables, range.
  pose proof (create_tables_for_spec create_all max_retries 0%nat) as H.
  cbv zeta in H. cbn [Nat.add] in H.
  destruct H as (Hc & _ & _ & Htwo & Hsome & Hrest).
  split; [exact Hc|]. split; [exact Htwo|]. split.
  - intros ->. split; reflexivity.
  - intros Hpos. destruct (Hrest Hpos) as [Hsl Hfail].
    split; [|split; [exact Hsl|]].
    + split.
      * intros Hr.
        destruct (some_or_none create_all 0 max_retries)
          as [(k & Hk & Hn) | Hall].
        -- exists k. split; [lia | exact Hn].
        -- destruct (Hfail Hall) as (e & _ & He & _). rewrite He in Hr.
           discriminate Hr.
      * intros (k & Hk & Hn). apply Hsome. exists k. split; [lia | exact Hn].
    + intros Hall. apply Hfail. intros k Hk. apply Hall. lia.
Qed.

Lemma create_tables_outcome_witness :
  snd (create_tables refused 0) = inr tt
  /\ snd (create_tables flaky 5) = inr tt
  /\ exists e, snd (create_tables refused 5) = inl (Exception e)
               /\ create_alls (fst (create_tables refused 5)) = 5%nat.
Proof.
  split; [|split].
  - destruct (create_tables_outcome refused 0) as (_ & _ & H & _).
    exact (proj2 (H eq_refl)).
  - destruct (create_tables_outcome flaky 5) as (_ & _ & _ & H).
    destruct (H ltac:(lia)) as [Hiff _]. apply Hiff.
    exists 1%nat. split; [lia | reflexivity].
  - destruct (create_tables_outcome refused 5) as (_ & _ & _ & H).
    destruct (H ltac:(lia)) as (_ & _ & Hfail).
    destruct Hfail as (e & _ & Hr & Hn); [intros k _; discriminate|].
    exists e. split; [exact Hr | exact Hn].
Defined.

(** X16.  The process reaches the serving state exactly when one of the ten
    connection attempts, one of the five attempts to create the tables and
    the probe of the startup hook go through.  The tables are never touched
    before a connection has succeeded, and the startup hook never runs
    before the tables are there; in all there are at most ten connection
    attempts, five table creations and one probe. *)
Theorem boot_outcome (connect create_all probe : oracle) :
  let tr := fst (boot connect create_all probe) in
  let r := snd (boot connect create_all probe) in
  (r = inr tt
   <-> (exists k, (k < 10)%nat /\ connect k = None)
       /\ (exists j, (j < 5)%nat /\ create_all j = None)
       /\ probe 0%nat = None)
  /\ (connects tr <= 10)%nat /\ (create_alls tr <= 5)%nat /\ (probes tr <= 1)%nat
  /\ ((forall k, (k < 10)%nat -> connect k <> None) ->
      create_alls tr = 0%nat /\ probes tr = 0%nat)
  /\ ((forall j, (j < 5)%nat -> create_all j <> None) -> probes tr = 0%nat).
Proof.
  cbv zeta. unfold boot, startup, init_database, create_tables, range.
  pose proof (init_database_for_spec connect 10 0%nat 2
                ltac:(vm_compute; discriminate)) as H1.
  pose proof (create_tables_for_spec create_all 5 0%nat) as H2.
  cbv zeta in H1, H2. cbn [Nat.add] in H1, H2.
  destruct (init_database_for connect 10 (seq 0 10) 2) as [tr1 r1].
  destruct (create_tables_for create_all 5 (seq 0 5)) as [tr2 r2].
  cbn [fst snd] in H1, H2.
  destruct H1 as (Hc1 & Hca1 & Hp1 & Hsome1 & Hrest1).
  destruct H2 as (Hca2 & Hc2 & Hp2 & _ & Hsome2 & Hrest2).
  destruct (Hrest1 ltac:(lia)) as [_ Hfail1].
  destruct (Hrest2 ltac:(lia)) as [_ Hfail2].
  assert (Happ : forall (f : event -> bool) (a b : list event),
             List.length (filter f (a ++ b))
             = (List.length (filter f a) + List.length (filter f b))%nat)
    by (intros f a b; now rewrite filter_app, length_app).
  unfold connects, create_alls, probes in *.
  destruct (some_or_none connect 0 10) as [Hs1 | Hf1].
  - rewrite (Hsome1 Hs1).
    destruct (some_or_none create_all 0 5) as [Hs2 | Hf2].
    + rewrite (Hsome2 Hs2). unfold startup_event.
      destruct (probe 0%nat) as [e|] eqn:Ep; cbn [fst snd]; rewrite !Happ;
        cbn [filter List.length].
      * split; [split; [discriminate | intros (_ & _ & H); discriminate H]|].
        split; [lia|]. split; [lia|]. split; [lia|]. split.
        -- intros Hall. exfalso. destruct Hs1 as (k & Hk & Hn).
           apply (Hall k); [lia | exact Hn].
        -- intros Hall. exfalso. destruct Hs2 as (k & Hk & Hn).
           apply (Hall k); [lia | exact Hn].
      * split.
        { split; [intros _|reflexivity]. split; [|split; [|reflexivity]].
          - destruct Hs1 as (k & Hk & Hn). exists k. split; [lia | exact Hn].
          - destruct Hs2 as (k & Hk & Hn). exists k. split; [lia | exact Hn]. }
        split; [lia|]. split; [lia|]. split; [lia|]. split.
        -- intros Hall. exfalso. destruct Hs1 as (k & Hk & Hn).
           apply (Hall k); [lia | exact Hn].
        -- intros Hall. exfalso. destruct Hs2 as (k & Hk & Hn).
           apply (Hall k); [lia | exact Hn].
    + destruct (Hfail2 Hf2) as (e & _ & -> & _). cbn [fst snd]. rewrite !Happ.
      split.
      { split; [discriminate|]. intros (_ & (j & Hj & Hn) & _). exfalso.
        apply (Hf2 j); [lia | exact Hn]. }
      split; [lia|]. split; [lia|]. split; [lia|]. split.
      * intros Hall. exfalso. destruct Hs1 as (k & Hk & Hn).
        apply (Hall k); [lia | exact Hn].
      * intros _. lia.
  - destruct (Hfail1 Hf1) as (e & _ & -> & _). cbn [fst snd].
    split.
    { split; [discriminate|]. intros ((k & Hk & Hn) & _). exfalso.
      apply (Hf1 k); [lia | exact Hn]. }
    split; [lia|]. split; [lia|]. split; [lia|]. split.
    + intros _. split; [exact Hca1 | exact Hp1].
    + intros _. exact Hp1.
Qed.

Lemma boot_outcome_witness :
  snd (boot flaky flaky reachable) = inr tt
  /\ create_alls (fst (boot refused reachable reachable)) = 0%nat
  /\ probes (fst (boot reachable refused reachable)) = 0%nat.
Proof.
  split; [|split].
  - apply (boot_outcome flaky flaky reachable). split; [|split].
    + exists 1%nat. split; [lia | reflexivity].
    + exists 1%nat. split; [lia | reflexivity].
    + reflexivity.
  - destruct (boot_outcome refused reachable reachable)
      as (_ & _ & _ & _ & H & _).
    apply H. intros k _. discriminate.
  - destruct (boot_outcome reachable refused reachable)
      as (_ & _ & _ & _ & _ & H).
    apply H. intros k _. discriminate.
Defined.

(** X17.  A health probe opens one session, probes it once and never
    sleeps or tries again: it answers healthy exactly when that probe goes
    through, and otherwise 503 with the reason in the detail; [/health]
    answers as [/] does.  So when the first probe fails and the second would
    go through, the health probe reports 503 while a request arriving in the
    same state reaches its handler, because [get_db] tries again, and is
    answered with the value of the handler when the handler returns. *)
Theorem health_single_probe (scan : scan_order) (probe : oracle)
        (req : request) (db : Database) :
  probes (fst (root probe)) = 1%nat
  /\ sleeps (fst (root probe)) = []
  /\ health_check probe = root probe
  /\ ((exists h, snd (root probe) = inr h) <-> probe 0%nat = None)
  /\ (forall e, probe 0%nat = Some e ->
        snd (root probe)
        = inl (HTTPException 503 ("Service unhealthy: " ++ e))
        /\ (probe 1%nat = None ->
            handled (fst (serve scan probe req db)) = 1%nat
            /\ forall db' v,
                call (handler scan req) db = (db', inr v) ->
                snd (serve scan probe req db) = (db', inr v))).
Proof.
  unfold health_check, root.
  destruct (probe 0%nat) as [e0|] eqn:E0; cbn [fst snd].
  - split; [reflexivity|]. split; [reflexivity|]. split; [reflexivity|]. split.
    + split; [intros (h & H); discriminate H | discriminate].
    + intros e He. injection He as <-. split; [reflexivity|].
      intros E1. split.
      * destruct (call (handler scan req) db) as [db' [e|v]] eqn:Hcall.
        -- rewrite (serve_raising scan probe req db db' e Hcall), E0, E1.
           destruct (probe 2%nat); reflexivity.
        -- rewrite (serve_returning scan probe req db db' v Hcall), E0, E1.
           reflexivity.
      * intros db' v Hcall.
        rewrite (serve_returning scan probe req db db' v Hcall), E0, E1.
        reflexivity.
  - split; [reflexivity|]. split; [reflexivity|]. split; [reflexivity|]. split.
    + split; [reflexivity | intros _; eexists; reflexivity].
    + intros e He. discriminate He.
Qed.

Lemma health_single_probe_witness :
  snd (root flaky)
  = inl (HTTPException 503 "Service unhealthy: connection refused")
  /\ handled (fst (serve heap_order flaky GetTodos empty_database)) = 1%nat
  /\ snd (serve heap_order flaky GetTodos empty_database)
     = (empty_database, inr (Todos [])).
Proof.
  destruct (health_single_probe heap_order flaky GetTodos empty_database)
    as (_ & _ & _ & _ & H).
  destruct (H "connection refused"%string eq_refl) as [Hroot Hserve].
  destruct (Hserve eq_refl) as [Hhandled Hvalue].
  split; [exact Hroot|]. split; [exact Hhandled|].
  exact (Hvalue empty_database (Todos []) eq_refl).
Defined.
